(** * medallion/backends/postgres_backend.py: the PostgreSQL persistence
      backend of the TAXII server, as a shallow embedding.

    Python dictionaries are finite maps with string keys, the four ORM
    tables are lists of typed rows in insertion order, the SQLAlchemy
    session is threaded explicitly, and exceptions are a constructor of
    the outcome type. *)

From Stdlib Require Import ZArith Ascii String List Bool Lia.
From Stdlib Require OrderedTypeEx.
From stdpp Require Import base option list strings gmap.

Local Open Scope string_scope.
Local Open Scope Z_scope.
Local Open Scope list_scope.

(** ** Python values and dictionaries *)

(** The STIX objects of a request are JSON objects that nothing has
    validated: a member may be any JSON value. A number stands as the text
    of its literal. A Python string is the sequence of the bytes of its
    UTF-8 encoding; a string that has none (one with a lone surrogate) is
    not represented. *)
#[warnings="-register-all"]
Inductive json : Type :=
| JNull
| JBool (b : bool)
| JNum (literal : string)
| JStr (s : string)
| JArr (items : list json)
| JObj (members : list (string * json)).

Abbreviation stix := (gmap string json).

Inductive pyval : Type :=
| PyNone
| PyStr (s : string)
| PyInt (z : Z)
| PyBool (b : bool)
| PyList (l : list string)
| PyObj (o : stix).

Abbreviation pydict := (gmap string pyval).

(** A nullable string column read into Python. *)
Definition py_of_column (c : option string) : pyval :=
  match c with
  | Some s => PyStr s
  | None => PyNone
  end.

(** ** Exceptions *)

Inductive db_fault : Type :=
| UniqueViolation
| ForeignKeyViolation
| StringDataRightTruncation
| NumericValueOutOfRange
| InvalidColumnValue
| NotNullViolation
| CannotAdapt
| InFailedSqlTransaction
| GroupingError.

Inductive exn : Type :=
| KeyError (key : string)
| IndexError
| AttributeError
| TypeError
| ValueError
| InvalidRequestError
| DBAPIError (why : db_fault).

(** ** Strings: [sep.join(l)] and [s.split(",")] *)

(** [sep.join(l)] is [String.concat sep l]. *)
Definition join (sep : string) (l : list string) : string :=
  String.concat sep l.

(** [s.split(sep)] for a one-character separator: the pieces between the
    occurrences of [sep]; never the empty list. *)
Fixpoint split (sep : ascii) (s : string) : list string :=
  match s with
  | EmptyString => [EmptyString]
  | String c s' =>
      if Ascii.eqb c sep then EmptyString :: split sep s'
      else match split sep s' with
           | [] => [String c EmptyString]
           | p :: ps => String c p :: ps
           end
  end.

Definition comma : ascii := ","%char.

(** [k.startswith('_')] *)
Definition startswith_underscore (k : string) : bool :=
  match k with
  | String c _ => Ascii.eqb c "_"%char
  | EmptyString => false
  end.

(** [c in s] for a character. *)
Fixpoint contains (c : ascii) (s : string) : bool :=
  match s with
  | EmptyString => false
  | String c' s' => Ascii.eqb c' c || contains c s'
  end.

(** [str.join] takes strings only: the strings of a list of Python
    values, when every one of them is a string. *)
Fixpoint strings_of (l : list json) : option (list string) :=
  match l with
  | [] => Some []
  | JStr v :: l' =>
      match strings_of l' with
      | Some vs => Some (v :: vs)
      | None => None
      end
  | _ :: _ => None
  end.

(** ** Strings as PostgreSQL takes them *)

(** The driver refuses a string with a NUL character. *)
Definition nul : ascii := "000"%char.
Definition has_nul (v : string) : bool := contains nul v.

(** A byte [10xxxxxx] continues a character of the UTF-8 encoding. *)
Definition is_continuation (c : ascii) : bool :=
  match c with
  | Ascii _ _ _ _ _ _ b6 b7 => b7 && negb b6
  end.

(** The first [n] characters of a string, and the rest. *)
Fixpoint split_chars (n : nat) (v : string) : string * string :=
  match v with
  | EmptyString => (EmptyString, EmptyString)
  | String c v' =>
      if is_continuation c
      then (String c (fst (split_chars n v')), snd (split_chars n v'))
      else match n with
           | O => (EmptyString, v)
           | S n' => (String c (fst (split_chars n' v')), snd (split_chars n' v'))
           end
  end.

Fixpoint all_spaces (v : string) : bool :=
  match v with
  | EmptyString => true
  | String c v' => Ascii.eqb c " "%char && all_spaces v'
  end.

(** What a column [character varying(n)] stores of a string: the string
    when it has at most [n] characters, its first [n] characters when all
    the characters after them are spaces, and otherwise nothing (the
    statement is refused). *)
Definition varchar (n : nat) (v : string) : option string :=
  if all_spaces (snd (split_chars n v)) then Some (fst (split_chars n v)) else None.

(** ** The tables (classes [Objects], [Collections], [APIRoot], [Status]) *)

Module Objects.
Record t : Type := mk {
  id : string;            (* String(128), primary key *)
  type : option string;
  date_added : string;    (* String(64) *)
  collection : string;    (* ForeignKey('collections.id'), so String(36) *)
  object : stix;          (* JSON *)
  revoked : bool;         (* server_default="False" *)
  created : option string;
  modified : string       (* primary key *)
}.
End Objects.

Module Collections.
Record t : Type := mk {
  id : string;                   (* String(36), primary key *)
  title : option string;         (* String(255) *)
  description : option string;   (* String(255) *)
  media_types : option string;   (* String(255), server default *)
  api_root : option string       (* ForeignKey('api_root.uri') *)
}.

Definition media_types_server_default : string :=
  "application/vnd.oasis.stix+json".
End Collections.

Module APIRoot.
Record t : Type := mk {
  uri : string;                  (* String(50), primary key *)
  title : option string;
  description : option string;
  versions : option string;      (* server default 'taxii-2.0' *)
  max_content_length : option Z
}.
End APIRoot.

Module Status.
Record t : Type := mk {
  id : string;                   (* String(36), primary key *)
  status : option string;        (* String(8) *)
  request_timestamp : option string;  (* String(255) *)
  total_count : option Z;
  success_count : Z;             (* default=0 *)
  failure_count : Z;             (* default=0 *)
  pending_count : Z;             (* default=0 *)
  successes : string;            (* default="" *)
  failures : string;             (* default="" *)
  pendings : string              (* default="" *)
}.
End Status.

(** A Python value bound to a column of character type: NULL, a string,
    the text the database makes of a value of another type, or the
    exception the driver raises when it binds the value. *)
Inductive colval : Type :=
| Null
| Str (v : string)
| Cast (text : string)
| Raises (e : exn).

(** The attributes of an [Objects(...)] instance. *)
Record NewObjects : Type := mkNewObjects {
  new_id : json;
  new_type : json;
  new_date_added : string;
  new_collection : string;
  new_object : stix;
  new_created : json;
  new_modified : json
}.

(** An instance handed to [session.add]. *)
Inductive instance : Type :=
| NewObject (new : NewObjects)
| NewStatus (attrs : pydict).

(** What the session holds since the last commit or rollback: the
    instances added, a statement that failed in the open transaction
    (PostgreSQL then refuses every statement until the transaction ends),
    a flush that raised (the session then refuses to work until the
    rollback). *)
Inductive entry : Type :=
| Added (i : instance)
| FailedStatement
| FailedFlush.

(** The session: the committed tables, what is pending, and the engine it
    is bound to, that is, what psycopg2 and PostgreSQL make of a parameter
    that is neither a string nor [None] when it is bound to a column of
    character type. The state of the transaction is followed for what is
    written: the reads below are taken on the committed tables, also in a
    transaction with a failed statement, where PostgreSQL would refuse
    them too. *)
Record Session : Type := mkSession {
  objects_tbl : list Objects.t;
  collections_tbl : list Collections.t;
  api_root_tbl : list APIRoot.t;
  status_tbl : list Status.t;
  pending : list entry;
  engine : json -> colval
}.

(** ** Outcomes: a state and exception monad over the session *)

Inductive outcome (A : Type) : Type :=
| Return (a : A) (s : Session)
| Raise (e : exn) (s : Session).
Arguments Return {A} a s.
Arguments Raise {A} e s.

Definition action (A : Type) : Type := Session -> outcome A.

Definition ret {A} (a : A) : action A := fun s => Return a s.
Definition raise {A} (e : exn) : action A := fun s => Raise e s.
Definition bind {A B} (m : action A) (k : A -> action B) : action B :=
  fun s => match m s with
           | Return a s' => k a s'
           | Raise e s' => Raise e s'
           end.

Notation "x <- m ;; k" := (bind m (fun x => k))
  (at level 100, m at next level, right associativity).
Notation "m ;;; k" := (bind m (fun _ => k))
  (at level 100, right associativity).

(** [d[k]] on an object of the request: [KeyError] when [k] is absent. *)
Definition getitem (d : stix) (k : string) : action json :=
  match d !! k with
  | Some v => ret v
  | None => raise (KeyError k)
  end.

(** [d.setdefault(k, v)]: the value already under [k] when the key is
    present (whatever that value is), otherwise [v], which is then stored. *)
Definition setdefault (d : pydict) (k : string) (v : pyval) : pyval * pydict :=
  match d !! k with
  | Some v' => (v', d)
  | None => (v, <[k := v]> d)
  end.

(** ** [ObjDict]: the mixin of the four table classes *)

(** [instance_dict x] is [x.__dict__.items()] of an instance loaded by a
    query: the ORM's bookkeeping entry and then one entry per column,
    [None] for a NULL. *)
Class ObjDict (A : Type) : Type := { instance_dict : A -> list (string * pyval) }.

(** The value under [_sa_instance_state] is the ORM's state object; it is
    never read, and stands here as [PyNone]. *)
Definition sa_instance_state : string * pyval := ("_sa_instance_state", PyNone).

Definition to_dict {A} `{ObjDict A} (self : A) : pydict :=
  fold_left
    (fun ret_val kv =>
       if startswith_underscore (fst kv) then ret_val
       else <[fst kv := snd kv]> ret_val)
    (instance_dict self) ∅.

#[export] Instance Objects_ObjDict : ObjDict Objects.t := {
  instance_dict r :=
    [ sa_instance_state;
      ("id", PyStr (Objects.id r));
      ("type", py_of_column (Objects.type r));
      ("date_added", PyStr (Objects.date_added r));
      ("collection", PyStr (Objects.collection r));
      ("object", PyObj (Objects.object r));
      ("revoked", PyBool (Objects.revoked r));
      ("created", py_of_column (Objects.created r));
      ("modified", PyStr (Objects.modified r)) ]
}.

#[export] Instance Collections_ObjDict : ObjDict Collections.t := {
  instance_dict r :=
    [ sa_instance_state;
      ("id", PyStr (Collections.id r));
      ("title", py_of_column (Collections.title r));
      ("description", py_of_column (Collections.description r));
      ("media_types", py_of_column (Collections.media_types r));
      ("api_root", py_of_column (Collections.api_root r)) ]
}.

Definition py_of_int_column (c : option Z) : pyval :=
  match c with
  | Some z => PyInt z
  | None => PyNone
  end.

#[export] Instance Status_ObjDict : ObjDict Status.t := {
  instance_dict r :=
    [ sa_instance_state;
      ("id", PyStr (Status.id r));
      ("status", py_of_column (Status.status r));
      ("request_timestamp", py_of_column (Status.request_timestamp r));
      ("total_count", py_of_int_column (Status.total_count r));
      ("success_count", PyInt (Status.success_count r));
      ("failure_count", PyInt (Status.failure_count r));
      ("pending_count", PyInt (Status.pending_count r));
      ("successes", PyStr (Status.successes r));
      ("failures", PyStr (Status.failures r));
      ("pendings", PyStr (Status.pendings r)) ]
}.

(** ** [Status.__init__] and the row its INSERT writes *)

(** [Status(initial_data)] sets one attribute per key. At the INSERT an
    attribute that is unset or [None] is left out, and the column takes
    its default. *)
Definition str_column (attrs : pydict) (k : string) : option (option string) :=
  match attrs !! k with
  | None | Some PyNone => Some None
  | Some (PyStr v) => Some (Some v)
  | Some _ => None
  end.

Definition int_column (attrs : pydict) (k : string) : option (option Z) :=
  match attrs !! k with
  | None | Some PyNone => Some None
  | Some (PyInt v) => Some (Some v)
  | Some _ => None
  end.

(** [None] when an attribute has a value its column cannot take, or the
    primary key is missing. *)
Definition status_row (attrs : pydict) : option Status.t :=
  id ← str_column attrs "id" ≫= (fun x => x);
  status ← str_column attrs "status";
  request_timestamp ← str_column attrs "request_timestamp";
  total_count ← int_column attrs "total_count";
  success_count ← int_column attrs "success_count";
  failure_count ← int_column attrs "failure_count";
  pending_count ← int_column attrs "pending_count";
  successes ← str_column attrs "successes";
  failures ← str_column attrs "failures";
  pendings ← str_column attrs "pendings";
  Some (Status.mk id status request_timestamp total_count
          (default 0 success_count) (default 0 failure_count)
          (default 0 pending_count)
          (default "" successes) (default "" failures) (default "" pendings)).

(** ** The session: [add], [commit], [rollback] *)

(** The number of characters of a string. *)
Fixpoint chars (v : string) : nat :=
  match v with
  | EmptyString => O
  | String c v' => if is_continuation c then chars v' else S (chars v')
  end.

Definition strlen (s : string) : Z := Z.of_nat (chars s).

Definition fits (n : Z) (c : option string) : bool :=
  match c with
  | Some s => strlen s <=? n
  | None => true
  end.

(** PostgreSQL's [integer] is 32 bits wide. *)
Definition int4 (z : Z) : bool := (- 2 ^ 31 <=? z) && (z <? 2 ^ 31).

Definition same_object_key (a b : Objects.t) : bool :=
  String.eqb (Objects.id a) (Objects.id b)
  && String.eqb (Objects.modified a) (Objects.modified b).

(** [None] is bound as NULL and a string as itself; the engine decides
    on every other value. *)
Definition bound (engine : json -> colval) (v : json) : colval :=
  match v with
  | JNull => Null
  | JStr x => Str x
  | _ => engine v
  end.

(** The text the database receives for a bound value. *)
Definition text_of (c : colval) : option string :=
  match c with
  | Str v | Cast v => Some v
  | Null | Raises _ => None
  end.

(** What the driver raises while it binds one parameter: the exception of
    a value it cannot bind, [ValueError] for a Python string with a NUL. *)
Definition bind_colval (c : colval) : option exn :=
  match c with
  | Raises e => Some e
  | Str v => if has_nul v then Some ValueError else None
  | Null | Cast _ => None
  end.

Definition first_error (l : list (option exn)) : option exn :=
  List.fold_right (fun o rest => match o with Some e => Some e | None => rest end) None l.

(** The parameters of the INSERT are bound in the order of the columns;
    the first that cannot be bound decides. The JSON text of [object] can
    always be bound. The strings of a status are bound as they are: a
    NUL in one of them is not modelled. *)
Definition bind_error (engine : json -> colval) (i : instance) : option exn :=
  match i with
  | NewObject new =>
      first_error
        [ bind_colval (bound engine (new_id new));
          bind_colval (bound engine (new_type new));
          bind_colval (Str (new_date_added new));
          bind_colval (Str (new_collection new));
          bind_colval (bound engine (new_created new));
          bind_colval (bound engine (new_modified new)) ]
  | NewStatus _ => None
  end.

(** A nullable column [character varying(n)]. *)
Definition sized (n : nat) (c : option string) : option (option string) :=
  match c with
  | None => Some None
  | Some v => option_map Some (varchar n v)
  end.

(** The row the INSERT of an instance of [Objects] writes, or why the
    statement is refused before the keys are looked at: [id],
    [date_added] and [collection] are stored as their columns of 128, 64
    and 36 characters take them, and the two columns of the primary key
    cannot be NULL. *)
Definition inserted_row (engine : json -> colval) (new : NewObjects)
  : db_fault + Objects.t :=
  match sized 128 (text_of (bound engine (new_id new))),
        varchar 64 (new_date_added new),
        varchar 36 (new_collection new) with
  | Some id, Some date_added, Some collection =>
      match id, text_of (bound engine (new_modified new)) with
      | Some id, Some modified =>
          inr (Objects.mk id (text_of (bound engine (new_type new)))
                          date_added collection (new_object new) false
                          (text_of (bound engine (new_created new))) modified)
      | _, _ => inl NotNullViolation
      end
  | _, _, _ => inl StringDataRightTruncation
  end.

(** What PostgreSQL answers to the INSERT of one row, from the columns as
    the classes declare them: the sizes of the [String(n)] columns, the
    primary keys ([objects]: (id, modified); [status]: id) and the foreign
    key of [objects.collection]. For [status] a string longer than its
    column is refused, also where PostgreSQL would drop the spaces that
    are too many. *)
Definition insert_fault (s : Session) (i : instance) : option db_fault :=
  match i with
  | NewObject new =>
      match inserted_row (engine s) new with
      | inl f => Some f
      | inr r =>
          if existsb (same_object_key r) (objects_tbl s)
          then Some UniqueViolation
          else if negb (existsb (fun c => String.eqb (Collections.id c) (Objects.collection r))
                                (collections_tbl s))
          then Some ForeignKeyViolation
          else None
      end
  | NewStatus attrs =>
      match status_row attrs with
      | None => Some InvalidColumnValue
      | Some r =>
          if negb ((strlen (Status.id r) <=? 36)
                   && fits 8 (Status.status r)
                   && fits 255 (Status.request_timestamp r))
          then Some StringDataRightTruncation
          else if negb (match Status.total_count r with Some z => int4 z | None => true end
                        && int4 (Status.success_count r)
                        && int4 (Status.failure_count r)
                        && int4 (Status.pending_count r))
          then Some NumericValueOutOfRange
          else if existsb (fun r' => String.eqb (Status.id r') (Status.id r)) (status_tbl s)
          then Some UniqueViolation
          else None
      end
  end.

(** The rows of a value that may be missing. *)
Definition row_list {A} (r : db_fault + A) : list A :=
  match r with
  | inr a => [a]
  | inl _ => []
  end.

Definition insert_row (i : instance) (s : Session) : Session :=
  match i with
  | NewObject new =>
      mkSession (objects_tbl s ++ row_list (inserted_row (engine s) new))
                (collections_tbl s)
                (api_root_tbl s) (status_tbl s) (pending s) (engine s)
  | NewStatus attrs =>
      mkSession (objects_tbl s) (collections_tbl s) (api_root_tbl s)
                (status_tbl s ++ option_list (status_row attrs)) (pending s) (engine s)
  end.

Definition set_pending (l : list entry) (s : Session) : Session :=
  mkSession (objects_tbl s) (collections_tbl s) (api_root_tbl s) (status_tbl s) l
            (engine s).

(** The flush of a commit: the instances added are inserted in order, in
    one transaction; the first that cannot be bound or is refused ends it.
    In a transaction with a failed statement ([aborted]) PostgreSQL
    refuses the INSERT that reaches it. *)
Fixpoint flush (aborted : bool) (l : list instance) (s : Session) : exn + Session :=
  match l with
  | [] => inr s
  | i :: l' =>
      match bind_error (engine s) i with
      | Some e => inl e
      | None =>
          if aborted then inl (DBAPIError InFailedSqlTransaction)
          else match insert_fault s i with
               | Some f => inl (DBAPIError f)
               | None => flush aborted l' (insert_row i s)
               end
      end
  end.

Definition added (l : list entry) : list instance :=
  omap (fun e => match e with Added i => Some i | _ => None end) l.

Definition failed_flush (l : list entry) : bool :=
  existsb (fun e => match e with FailedFlush => true | _ => false end) l.

Definition failed_statement (l : list entry) : bool :=
  existsb (fun e => match e with FailedStatement => true | _ => false end) l.

Definition session_add (i : instance) : action unit :=
  fun s => Return tt (set_pending (pending s ++ [Added i]) s).

(** After a flush that raised, the session raises [InvalidRequestError]
    until the rollback. A flush that raises, whatever it raises, leaves
    the tables as they were. A commit that has nothing to insert ends a
    transaction with a failed statement without an error. *)
Definition session_commit : action unit :=
  fun s =>
    if failed_flush (pending s) then Raise InvalidRequestError s
    else
      match flush (failed_statement (pending s)) (added (pending s)) s with
      | inr s' => Return tt (set_pending [] s')
      | inl e => Raise e (set_pending (pending s ++ [FailedFlush]) s)
      end.

Definition session_rollback : action unit :=
  fun s => Return tt (set_pending [] s).

(** [try: body except DBAPIError as e: handler] *)
Definition try_except_DBAPIError {A} (body : action A) (handler : db_fault -> action A)
  : action A :=
  fun s =>
    match body s with
    | Raise (DBAPIError f) s' => handler f s'
    | r => r
    end.

(** [session.query(T).filter(T.id == key).first()] *)
Definition query_first {A} (tbl : list A) (p : A -> bool) : option A := List.find p tbl.

(** ** [PostgresBackend.get_collection] *)

Definition default_media_type : string := "application/vnd.oasis.stix+json; version=2.0".

Definition get_collection (api_root collection_id : string) : action (option pydict) :=
  fun s =>
    match query_first (collections_tbl s)
                      (fun c => String.eqb (Collections.id c) collection_id) with
    | None => Return None s
    | Some query =>
        let d := to_dict query in
        let '(v, d) := setdefault d "media_types" (PyStr default_media_type) in
        match v with
        | PyStr media_types =>
            let d := <["media_types" := PyList (split comma media_types)]> d in
            let d := <["can_read" := PyBool true]> d in
            let d := <["can_write" := PyBool true]> d in
            Return (Some d) s
        | _ => Raise AttributeError s
        end
    end.

(** The INSERT that provisions a collection, as the table declares it: a
    column left out of the statement ([None]) takes its server default,
    which only [media_types] has; [Some None] is an explicit NULL. *)
Definition insert_into_collections
    (id : string) (title description : option string)
    (media_types : option (option string)) (api_root : option string)
    (s : Session) : db_fault + Session :=
  let mt := match media_types with
            | None => Some Collections.media_types_server_default
            | Some v => v
            end in
  if negb ((strlen id <=? 36) && fits 255 title && fits 255 description && fits 255 mt)
  then inl StringDataRightTruncation
  else if existsb (fun c => String.eqb (Collections.id c) id) (collections_tbl s)
  then inl UniqueViolation
  else if negb (match api_root with
                | Some u => existsb (fun a => String.eqb (APIRoot.uri a) u) (api_root_tbl s)
                | None => true
                end)
  then inl ForeignKeyViolation
  else inr (mkSession (objects_tbl s)
                      (collections_tbl s ++ [Collections.mk id title description mt api_root])
                      (api_root_tbl s) (status_tbl s) (pending s) (engine s)).

(** The engine of the sample servers: a number or a boolean is sent as a
    literal, which the server casts to text when it assigns it to the
    column; an array or an object is refused. *)
Definition sample_engine (v : json) : colval :=
  match v with
  | JNum literal => Cast literal
  | JBool true => Cast "true"
  | JBool false => Cast "false"
  | _ => Raises (DBAPIError CannotAdapt)
  end.

Definition empty_session : Session := mkSession [] [] [] [] [] sample_engine.

(** ** Helpers of [medallion.utils.common] *)

(** Modelled from the spec: [create_bundle] of [medallion.utils.common] is
    missing; a bundle is the objects "returned together as a read result". *)
Record Bundle (A : Type) : Type := mkBundle { bundle_objects : list A }.
Arguments mkBundle {A} _.
Arguments bundle_objects {A} _.

Definition create_bundle {A} (o : list A) : Bundle A := mkBundle o.

(** Modelled from the spec: [generate_status] of [medallion.utils.common]
    is missing. It builds the StatusRecord of the data model from the
    arguments [add_objects] passes: the three counts as given,
    [total_count] their sum (the record's invariant), the two id lists in
    the delimited-string form they are passed in, and no pending ids.
    [new_id] is the id the generator yields for this record. *)
Definition generate_status (new_id : string)
    (request_time status : string) (succeeded failed pending : Z)
    (successes_ids failures : string) : pydict :=
  <["id" := PyStr new_id]>
  (<["status" := PyStr status]>
  (<["request_timestamp" := PyStr request_time]>
  (<["total_count" := PyInt (succeeded + failed + pending)]>
  (<["success_count" := PyInt succeeded]>
  (<["failure_count" := PyInt failed]>
  (<["pending_count" := PyInt pending]>
  (<["successes" := PyStr successes_ids]>
  (<["failures" := PyStr failures]>
  (<["pendings" := PyStr ""]> ∅))))))))).


(** [d[k]] on a dictionary of Python values. *)
Definition pygetitem (d : pydict) (k : string) : action pyval :=
  match d !! k with
  | Some v => ret v
  | None => raise (KeyError k)
  end.

(** ** [PostgresBackend._put_status] *)

Definition _put_status (status : pydict) : action unit :=
  let s := NewStatus status in
  session_add s;;;
  try_except_DBAPIError
    session_commit
    (fun e => session_rollback).

(** ** [PostgresBackend._split_or_empty] and [get_status] *)

Definition _split_or_empty (str : pyval) : exn + pyval :=
  match str with
  | PyStr EmptyString => inr (PyList [])
  | PyStr v => inr (PyList (split comma v))
  | _ => inl AttributeError
  end.

(** A call of a function that leaves the session alone. *)
Definition call {A} (r : exn + A) : action A :=
  match r with
  | inr a => ret a
  | inl e => raise e
  end.

Definition get_status (api_root status_id : string) : action (option pydict) :=
  fun st =>
    match query_first (status_tbl st)
                      (fun r => String.eqb (Status.id r) status_id) with
    | Some status =>
        (let s := to_dict status in
         pendings <- (v <- pygetitem s "pendings";; call (_split_or_empty v));;
         let s := <["pendings" := pendings]> s in
         failures <- (v <- pygetitem s "failures";; call (_split_or_empty v));;
         let s := <["failures" := failures]> s in
         successes <- (v <- pygetitem s "successes";; call (_split_or_empty v));;
         let s := <["successes" := successes]> s in
         ret (Some s)) st
    | None => Return None st
    end.

(** ** [PostgresBackend.get_object_manifest] *)

Module Manifest.
(** One value of [maker]: the dictionary literal
    [{'id': .., 'date_added': .., 'versions': [..], 'media_types': [..]}]. *)
Record entry : Type := mk {
  id : string;
  date_added : string;
  versions : list string;
  media_types : list string
}.
End Manifest.

(** [maker]: a dictionary in insertion order, as [for k in maker] walks it. *)
Definition odict (V : Type) : Type := list (string * V).

Fixpoint odict_get {V} (d : odict V) (k : string) : option V :=
  match d with
  | [] => None
  | (k', v) :: d' => if String.eqb k' k then Some v else odict_get d' k
  end.

(** [d[k] = v]: in place when [k] is a key, at the end otherwise. *)
Fixpoint odict_set {V} (d : odict V) (k : string) (v : V) : odict V :=
  match d with
  | [] => [(k, v)]
  | (k', v') :: d' =>
      if String.eqb k' k then (k', v) :: d' else (k', v') :: odict_set d' k v
  end.

(** One turn of [for q in query], [q = (id, date_added, modified)]. An
    entry of [maker] is never an empty dictionary, so [not test] holds
    exactly when the key is absent. *)
Definition manifest_step (maker : odict Manifest.entry) (q : string * string * string)
  : odict Manifest.entry :=
  let '(q0, q1, q2) := q in
  match odict_get maker q0 with
  | None =>
      odict_set maker q0 (Manifest.mk q0 q1 [q2] [default_media_type])
  | Some e =>
      odict_set maker q0
        (Manifest.mk (Manifest.id e) (Manifest.date_added e)
                     (Manifest.versions e ++ [q2]) (Manifest.media_types e))
  end.

(** [session.query(Objects.id, Objects.date_added, Objects.modified).all()]:
    every row of the table, whatever its collection, in table order. *)
Definition query_id_date_added_modified (s : Session) : list (string * string * string) :=
  map (fun r => (Objects.id r, Objects.date_added r, Objects.modified r)) (objects_tbl s).

Definition get_object_manifest (api_root collection_id : string) : action (list Manifest.entry) :=
  fun s =>
    let query := query_id_date_added_modified s in
    let maker := fold_left manifest_step query [] in
    let manifest := fold_left (fun (manifest : list Manifest.entry) kv => manifest ++ [snd kv]) maker [] in
    Return manifest s.

(** ** [PostgresBackend.get_objects] *)

(** The statement [get_objects] builds is a grouped SELECT. Its shape is
    kept as data, so that PostgreSQL's rule for grouped statements can be
    applied to it. *)
Inductive column : Type :=
| c_id | c_type | c_date_added | c_collection | c_object | c_revoked
| c_created | c_modified.

Definition column_eqb (a b : column) : bool :=
  match a, b with
  | c_id, c_id | c_type, c_type | c_date_added, c_date_added
  | c_collection, c_collection | c_object, c_object | c_revoked, c_revoked
  | c_created, c_created | c_modified, c_modified => true
  | _, _ => false
  end.

Inductive target : Type :=
| Col (c : column)
| FuncMax (c : column).

Record grouped_select : Type := mkSelect {
  targets : list target;
  group_by : list column;
  order_by : list column
}.

(** The primary key of [objects]: the two columns with [primary_key=True]. *)
Definition objects_pkey : list column := [c_id; c_modified].

Definition mem_column (c : column) (l : list column) : bool := existsb (column_eqb c) l.

(** PostgreSQL accepts a column outside an aggregate, in the target list
    or in ORDER BY, only when it is grouped or the grouped columns hold
    the whole primary key of its table; otherwise the statement is
    refused ("must appear in the GROUP BY clause or be used in an
    aggregate function") before any row is read, and the transaction it
    was sent in has a failed statement from then on. *)
Definition grouping_ok (q : grouped_select) : bool :=
  let determined c :=
    mem_column c (group_by q)
    || forallb (fun k => mem_column k (group_by q)) objects_pkey in
  forallb (fun t => match t with Col c => determined c | FuncMax _ => true end) (targets q)
  && forallb determined (order_by q).

Definition cell (c : column) (r : Objects.t) : pyval :=
  match c with
  | c_id => PyStr (Objects.id r)
  | c_type => py_of_column (Objects.type r)
  | c_date_added => PyStr (Objects.date_added r)
  | c_collection => PyStr (Objects.collection r)
  | c_object => PyObj (Objects.object r)
  | c_revoked => PyBool (Objects.revoked r)
  | c_created => py_of_column (Objects.created r)
  | c_modified => PyStr (Objects.modified r)
  end.

(** The text a string column is compared and ordered by. *)
Definition sort_key (c : column) (r : Objects.t) : string :=
  match cell c r with
  | PyStr v => v
  | _ => EmptyString
  end.

Definition same_group (g : list column) (a b : Objects.t) : bool :=
  forallb (fun c => String.eqb (sort_key c a) (sort_key c b)) g.

(** The groups of GROUP BY, each with its rows in table order. *)
Fixpoint groups (g : list column) (fuel : nat) (rows : list Objects.t)
  : list (list Objects.t) :=
  match fuel, rows with
  | S fuel', r :: rest =>
      (r :: List.filter (same_group g r) rest)
        :: groups g fuel' (List.filter (fun x => negb (same_group g r x)) rest)
  | _, _ => []
  end.

Definition string_max (a b : string) : string := if String.ltb a b then b else a.

(** One result row of an accepted statement: a plain column is read off
    the group (it is the same on all of its rows), [max] ranges over it. *)
Definition result_row (q : grouped_select) (grp : list Objects.t) : list pyval :=
  match grp with
  | [] => []
  | r :: rest =>
      map (fun t => match t with
                    | Col c => cell c r
                    | FuncMax c =>
                        PyStr (fold_left string_max (map (sort_key c) rest) (sort_key c r))
                    end) (targets q)
  end.

(** ORDER BY: a stable insertion sort; [lt a b] when [a] sorts strictly
    before [b]. *)
Fixpoint insert_sorted {A} (lt : A -> A -> bool) (x : A) (sorted : list A) : list A :=
  match sorted with
  | [] => [x]
  | h :: t => if lt h x then h :: insert_sorted lt x t else x :: h :: t
  end.

Definition order_rows {A} (lt : A -> A -> bool) (l : list A) : list A :=
  fold_right (insert_sorted lt) [] l.

Fixpoint lex_ltb (a b : list string) : bool :=
  match a, b with
  | x :: a', y :: b' => String.ltb x y || (String.eqb x y && lex_ltb a' b')
  | _, _ => false
  end.

(** [.all()] of a grouped statement on [objects]. *)
Definition execute_grouped (q : grouped_select) : action (list (list pyval)) :=
  fun s =>
    if grouping_ok q then
      let key grp := match grp with
                     | r :: _ => map (fun c => sort_key c r) (order_by q)
                     | [] => []
                     end in
      let gs := groups (group_by q) (length (objects_tbl s)) (objects_tbl s) in
      Return (map (result_row q) (order_rows (fun a b => lex_ltb (key a) (key b)) gs)) s
    else Raise (DBAPIError GroupingError) (set_pending (pending s ++ [FailedStatement]) s).

(** [q.object] of a result row of the statement below: its second column. *)
Definition row_object (q : list pyval) : pyval := nth 1 q PyNone.

Definition get_objects (api_root collection_id : string) : action (Bundle pyval) :=
  query <- execute_grouped
             (mkSelect [Col c_id; Col c_object; FuncMax c_modified] [c_id] [c_modified]);;
  let objects := fold_left (fun (objects : list pyval) q => objects ++ [row_object q]) query [] in
  let bundle := create_bundle objects in
  ret bundle.

(** ** [PostgresBackend.add_objects] *)

(** The local variables of [add_objects]. The two lists hold what
    [new_obj["id"]] gave, whatever its type. *)
Record tally : Type := mkTally {
  failed : Z;
  succeeded : Z;
  pending_count : Z;
  successes : list json;
  failures : list json
}.

(** The body of [for new_obj in objs["objects"]]. *)
Definition add_object (id_ request_time : string) (new_obj : stix) (t : tally)
  : action tally :=
  try_except_DBAPIError
    (id <- getitem new_obj "id";;
     type <- getitem new_obj "type";;
     created <- getitem new_obj "created";;
     modified <- getitem new_obj "modified";;
     let new := mkNewObjects id type request_time id_ new_obj created modified in
     session_add (NewObject new);;;
     session_commit;;;
     id <- getitem new_obj "id";;
     ret (mkTally (failed t) (succeeded t) (pending_count t)
                  (successes t ++ [id]) (failures t)))
    (fun e =>
       id <- getitem new_obj "id";;
       let t := mkTally (failed t + 1) (succeeded t) (pending_count t)
                        (successes t) (failures t ++ [id]) in
       session_rollback;;;
       ret t).

Fixpoint add_each (id_ request_time : string) (objects : list stix) (t : tally)
  : action tally :=
  match objects with
  | [] => ret t
  | new_obj :: rest =>
      t <- add_object id_ request_time new_obj t;;
      add_each id_ request_time rest t
  end.

(** [sep.join(l)] on a list of Python values: [TypeError] when one of
    them is not a string. *)
Definition pyjoin (sep : string) (l : list json) : action string :=
  match strings_of l with
  | Some vs => ret (join sep vs)
  | None => raise TypeError
  end.

(** [objs] is the request's bundle; of its members only the list under
    ["objects"] is read. [new_id] is the id drawn for the status. *)
Definition add_objects (new_id : string) (api_root id_ : string)
    (objs : gmap string (list stix)) (request_time : string) : action pydict :=
  let t := mkTally 0 0 0 [] [] in
  objects <- match objs !! "objects" with
             | Some l => ret l
             | None => raise (KeyError "objects")
             end;;
  t <- add_each id_ request_time objects t;;
  successes_ids <- pyjoin "" (successes t);;
  failures <- pyjoin "," (failures t);;
  let status := generate_status new_id request_time "complete"
                  (succeeded t) (failed t) (pending_count t)
                  successes_ids failures in
  _put_status status;;;
  ret status.

(** ** [PostgresBackend.get_object] *)

(** [.filter(Objects.id == object_id).order_by(desc(Objects.date_added)).all()];
    the strings are compared byte by byte. *)
Definition query_object_versions (object_id : string) (s : Session) : list Objects.t :=
  order_rows (fun a b => String.ltb (Objects.date_added b) (Objects.date_added a))
             (List.filter (fun r => String.eqb (Objects.id r) object_id) (objects_tbl s)).

Definition get_object (api_root collection_id object_id : string) : action (Bundle pydict) :=
  fun s =>
    let query := query_object_versions object_id s in
    match query with
    | q0 :: _ =>
        let objects := [] ++ [to_dict q0] in
        Return (create_bundle objects) s
    | [] => Raise IndexError s
    end.

(** ** [PostgresBackend.get_collections], [get_api_root_information] and
       [server_discovery] *)

#[export] Instance APIRoot_ObjDict : ObjDict APIRoot.t := {
  instance_dict r :=
    [ sa_instance_state;
      ("uri", PyStr (APIRoot.uri r));
      ("title", py_of_column (APIRoot.title r));
      ("description", py_of_column (APIRoot.description r));
      ("versions", py_of_column (APIRoot.versions r));
      ("max_content_length", py_of_int_column (APIRoot.max_content_length r)) ]
}.

(** [for c in session.query(Collections)]: every row, in table order;
    [api_root] is only logged. *)
Definition get_collections (api_root : string) : action (list pydict) :=
  fun s =>
    let query := collections_tbl s in
    let resources :=
      fold_left (fun (resources : list pydict) c => resources ++ [to_dict c]) query [] in
    Return resources s.




(** * Vocabulary of the statements *)

(** The instance [Objects(id=new_obj["id"], ...)] builds from an item
    that has the four members read; [None] when one is missing. *)
Definition new_instance (id_ request_time : string) (new_obj : stix) : option NewObjects :=
  id ← new_obj !! "id";
  type ← new_obj !! "type";
  created ← new_obj !! "created";
  modified ← new_obj !! "modified";
  Some (mkNewObjects id type request_time id_ new_obj created modified).

(** A value that is a string without a NUL. *)
Definition sendable (v : json) : bool :=
  match v with
  | JStr x => negb (has_nul x)
  | _ => false
  end.

(** An instance of which [id], [type], [created], [modified], the request
    time and the collection id are strings without a NUL. *)
Definition plain (new : NewObjects) : bool :=
  sendable (new_id new) && sendable (new_type new)
  && negb (has_nul (new_date_added new)) && negb (has_nul (new_collection new))
  && sendable (new_created new) && sendable (new_modified new).

(** The string of a value that is one. *)
Definition string_of (v : json) : string :=
  match v with
  | JStr x => x
  | _ => EmptyString
  end.

(** The id of the item an instance was built from. *)
Definition item_id (new : NewObjects) : string := string_of (new_id new).

(** What the storage answers to a sequence of instances inserted one by
    one, each in a transaction of its own: every instance with [true]
    when it was stored and [false] when its INSERT was refused. *)
Fixpoint storage_outcomes (news : list NewObjects) (s : Session)
  : list (NewObjects * bool) :=
  match news with
  | [] => []
  | n :: rest =>
      match insert_fault s (NewObject n) with
      | None => (n, true) :: storage_outcomes rest (insert_row (NewObject n) s)
      | Some _ => (n, false) :: storage_outcomes rest s
      end
  end.

Definition stored (o : list (NewObjects * bool)) : list NewObjects :=
  map fst (List.filter snd o).

Definition refused (o : list (NewObjects * bool)) : list NewObjects :=
  map fst (List.filter (fun x => negb (snd x)) o).

(** The rows the INSERTs of a list of instances write. *)
Definition rows_of (s : Session) (news : list NewObjects) : list Objects.t :=
  flat_map (fun n => row_list (inserted_row (engine s) n)) news.

(** A request bundle with the given objects. *)
Definition bundle_of (objects : list stix) : gmap string (list stix) :=
  {[ "objects" := objects ]}.

(** The session after those inserts. *)
Fixpoint ingest_session (news : list NewObjects) (s : Session) : Session :=
  match news with
  | [] => s
  | n :: rest =>
      match insert_fault s (NewObject n) with
      | None => ingest_session rest (insert_row (NewObject n) s)
      | Some _ => ingest_session rest s
      end
  end.

(** Every item of the batch has the members the loop reads, all of them
    strings without a NUL; [news] are the instances they make. *)
Definition plain_items (id_ request_time : string) (objects : list stix)
    (news : list NewObjects) : Prop :=
  Forall2 (fun o n => new_instance id_ request_time o = Some n /\ plain n = true)
          objects news.

(** A request the driver can send: the collection id and the request time
    have no NUL, and every item has its four members as such strings. *)
Definition wellformed (id_ request_time : string) (objects : list stix)
    (news : list NewObjects) : Prop :=
  has_nul id_ = false /\ has_nul request_time = false
  /\ plain_items id_ request_time objects news.

(** The list a status holds under [k], decoded the way [get_status]
    decodes it. *)
Definition status_list (st : pydict) (k : string) : option (list string) :=
  match st !! k with
  | Some v =>
      match _split_or_empty v with
      | inr (PyList l) => Some l
      | _ => None
      end
  | None => None
  end.

(** ** Sample data *)

(** A server with one provisioned collection, ["c"], and nothing stored. *)
Definition one_collection : Session :=
  mkSession [] [Collections.mk "c" None None (Some "application/vnd.oasis.stix+json") None]
            [] [] [] sample_engine.

(** An item of a request with all four members. *)
Definition item (id modified : string) : stix :=
  {[ "id" := JStr id; "type" := JStr "indicator";
     "created" := JStr "2019-01-01T00:00:00.000Z"; "modified" := JStr modified ]}.

(** The instance [add_objects] builds from that item. *)
Definition item_instance (id_ request_time id modified : string) : NewObjects :=
  mkNewObjects (JStr id) (JStr "indicator") request_time id_ (item id modified)
               (JStr "2019-01-01T00:00:00.000Z") (JStr modified).

(** What [new_obj["id"]] is when it is a string. *)
Definition id_of (new_obj : stix) : option pyval :=
  match new_obj !! "id" with
  | Some (JStr x) => Some (PyStr x)
  | _ => None
  end.

(** ** The claims of the specification that the backend does not meet,
       in its words *)

(** Re-ingest as a no-op success: the same item ingested by two calls is
    stored once, and both calls report it under [successes] and not under
    [failures]. *)
Definition reingest_is_noop_success (new_id1 new_id2 api_root id_ : string)
    (new_obj : stix) (request_time : string) (s : Session) : Prop :=
  match add_objects new_id1 api_root id_ (bundle_of [new_obj]) request_time s with
  | Return st1 s1 =>
      match add_objects new_id2 api_root id_ (bundle_of [new_obj]) request_time s1 with
      | Return st2 s2 =>
          length (objects_tbl s2) = S (length (objects_tbl s))
          /\ (st1 !! "successes" = id_of new_obj
              /\ st1 !! "failures" = Some (PyStr ""))
          /\ (st2 !! "successes" = id_of new_obj
              /\ st2 !! "failures" = Some (PyStr ""))
      | Raise _ _ => False
      end
  | Raise _ _ => False
  end.

(** No batch makes the call raise: a status is always returned. *)
Definition always_returns_a_status (new_id api_root id_ : string)
    (objects : list stix) (request_time : string) (s : Session) : Prop :=
  match add_objects new_id api_root id_ (bundle_of objects) request_time s with
  | Return _ _ => True
  | Raise _ _ => False
  end.

(** The two lists of the returned status hold the ids of the stored and
    of the refused items, in batch order. *)
Definition status_lists_follow_the_batch (new_id api_root id_ : string)
    (objects : list stix) (request_time : string) (s : Session) : Prop :=
  let outcomes := storage_outcomes (omap (new_instance id_ request_time) objects) s in
  match add_objects new_id api_root id_ (bundle_of objects) request_time s with
  | Return st _ =>
      status_list st "successes" = Some (map item_id (stored outcomes))
      /\ status_list st "failures" = Some (map item_id (refused outcomes))
  | Raise _ _ => False
  end.

(** ** The manifest, stated over the table *)

Definition rows_with_id (i : string) (rows : list Objects.t) : list Objects.t :=
  List.filter (fun r => String.eqb (Objects.id r) i) rows.

(** The ids of the rows, each once, in the order they first appear. *)
Definition distinct_ids (rows : list Objects.t) : list string :=
  fold_left
    (fun seen r =>
       if existsb (String.eqb (Objects.id r)) seen then seen
       else seen ++ [Objects.id r])
    rows [].

(** The entry of id [i]: the [date_added] of its first row and the
    [modified] of all its rows, in table order. *)
Definition manifest_entry (rows : list Objects.t) (i : string) : Manifest.entry :=
  Manifest.mk i
    (match rows_with_id i rows with
     | r :: _ => Objects.date_added r
     | [] => EmptyString
     end)
    (map Objects.modified (rows_with_id i rows))
    [default_media_type].

Definition manifest_view (rows : list Objects.t) : list Manifest.entry :=
  map (manifest_entry rows) (distinct_ids rows).


(** The stored objects of a collection, in table order. *)
Definition rows_of_collection (collection_id : string) (s : Session) : list Objects.t :=
  List.filter (fun r => String.eqb (Objects.collection r) collection_id) (objects_tbl s).


(** Two collections, one object stored in ["c"]. *)
Definition two_collections : Session :=
  mkSession
    [Objects.mk "x" (Some "indicator") "2019-03-01" "c" (item "x" "v1") false
                (Some "2019-01-01T00:00:00.000Z") "v1"]
    [Collections.mk "c" None None (Some "application/vnd.oasis.stix+json") None;
     Collections.mk "d" None None (Some "application/vnd.oasis.stix+json") None]
    [] [] [] sample_engine.

(** [maker] after the loop has seen the rows [rows]: one key per
    distinct id. *)
Definition maker_of (rows : list Objects.t) : odict Manifest.entry :=
  map (fun i => (i, manifest_entry rows i)) (distinct_ids rows).

(** The session an action leaves. *)
Definition after {A} (a : action A) (s : Session) : Session :=
  match a s with
  | Return _ s' => s'
  | Raise _ s' => s'
  end.


(** Three versions of ["x"] and one of ["y"], ingested in one batch. *)
Definition three_and_one : Session :=
  after (add_objects "status-1" "api1" "c"
           (bundle_of [item "x" "v1"; item "y" "v1"; item "x" "v2"; item "x" "v3"])
           "2019-03-01")
    one_collection.

(** ** Vocabulary of the further properties *)

(** The update of [ret_val] for one attribute, in [ObjDict.to_dict]. *)
Definition export_attribute (ret_val : pydict) (kv : string * pyval) : pydict :=
  if startswith_underscore (fst kv) then ret_val else <[fst kv := snd kv]> ret_val.

(** The list a stored string stands for. *)
Definition decoded (v : string) : list string :=
  match v with
  | EmptyString => []
  | _ => split comma v
  end.


(** A server with two API roots and a collection under the first. *)
Definition two_roots : Session :=
  mkSession []
    [Collections.mk "c" (Some "Indicators") None
                    (Some "application/vnd.oasis.stix+json,text/plain") (Some "api1")]
    [APIRoot.mk "api1" (Some "First") None (Some "taxii-2.0") (Some 9765625);
     APIRoot.mk "api2" None None (Some "taxii-2.0") None]
    [] [] sample_engine.

(** The session [_put_status] leaves: with the row of [status] when its
    INSERT is accepted, as it was when it is refused. *)
Definition with_status (status : pydict) (s : Session) : Session :=
  match insert_fault s (NewStatus status) with
  | None => insert_row (NewStatus status) s
  | Some _ => s
  end.

(** The dictionary [get_status] makes of a row. *)
Definition status_resource (row : Status.t) : pydict :=
  <["successes" := PyList (decoded (Status.successes row))]>
  (<["failures" := PyList (decoded (Status.failures row))]>
  (<["pendings" := PyList (decoded (Status.pendings row))]> (to_dict row))).

(** The first of the members [Objects(...)] reads, in the order it reads
    them, that an item lacks. *)
Definition first_missing_member (new_obj : stix) : option string :=
  List.find (fun k => match new_obj !! k with Some _ => false | None => true end)
            ["id"; "type"; "created"; "modified"].
(** * Properties *)

(** ** Strings *)

Section SplitJoin.

Lemma split_not_nil sep s : split sep s <> [].
Proof.
  destruct s as [|c s]; simpl; [discriminate|].
  destruct (Ascii.eqb c sep); [discriminate|].
  destruct (split sep s); discriminate.
Qed.

Lemma split_comma_free sep s : contains sep s = false -> split sep s = [s].
Proof.
  induction s as [|c s IH]; simpl; [reflexivity|].
  intros H. apply orb_false_iff in H as [Hc Hs].
  rewrite Hc, (IH Hs). reflexivity.
Qed.

Lemma split_app_sep sep x rest :
  contains sep x = false ->
  split sep (x ++ String sep rest)%string = x :: split sep rest.
Proof.
  induction x as [|c x IH]; simpl.
  - intros _. rewrite Ascii.eqb_refl. reflexivity.
  - intros H. apply orb_false_iff in H as [Hc Hx].
    rewrite Hc, (IH Hx). reflexivity.
Qed.

(** [",".join(l).split(",")] gives [l] back when no element has a comma
    and [l] is not empty. *)
Lemma split_join (l : list string) :
  l <> [] ->
  Forall (fun x => contains comma x = false) l ->
  split comma (join "," l) = l.
Proof.
  unfold join. induction l as [|x l IH]; [congruence|].
  intros _ Hall. inversion Hall as [|? ? Hx Hl]; subst.
  destruct l as [|y l].
  - simpl. apply split_comma_free, Hx.
  - change (String.concat "," (x :: y :: l))
      with (x ++ String comma (String.concat "," (y :: l)))%string.
    rewrite split_app_sep by exact Hx.
    f_equal. apply IH; [discriminate | exact Hl].
Qed.

Lemma join_empty_inv (l : list string) :
  Forall (fun x => x <> EmptyString) l -> join "," l = EmptyString -> l = [].
Proof.
  unfold join. destruct l as [|x l]; [reflexivity|].
  intros Hall. inversion Hall as [|? ? Hx _]; subst.
  destruct l as [|y l]; simpl.
  - intros ->. congruence.
  - destruct x; [congruence | discriminate].
Qed.

(** Decoding what [",".join] encoded: lossless for non-empty ids
    without commas. *)
Lemma split_or_empty_join (l : list string) :
  Forall (fun x => x <> EmptyString) l ->
  Forall (fun x => contains comma x = false) l ->
  _split_or_empty (PyStr (join "," l)) = inr (PyList l).
Proof.
  intros Hne Hc. unfold _split_or_empty.
  destruct (join "," l) eqn:E.
  - apply join_empty_inv in E; [subst; reflexivity | exact Hne].
  - rewrite <- E. rewrite split_join; [reflexivity | | exact Hc].
    intros ->. discriminate.
Qed.

End SplitJoin.

(** ** Columns of character type *)

(** [character varying(n)] counts characters, not bytes, and drops the
    spaces beyond the [n]th character; anything else beyond it is an
    error. *)
Example varchar_examples :
  varchar 3 "abc" = Some "abc"
  /\ varchar 3 "abc  " = Some "abc"
  /\ varchar 3 "abcd" = None
  /\ varchar 3 "héé" = Some "héé"
  /\ strlen "héé" = 3.
Proof. vm_compute. repeat split. Qed.

(** A value of at most [n] characters is stored as it is. *)
Lemma split_chars_fits v : forall n,
  (chars v <= n)%nat -> split_chars n v = (v, EmptyString).
Proof.
  induction v as [|c v IH]; intros n Hn; [reflexivity|].
  cbn [split_chars chars] in *.
  destruct (is_continuation c).
  - rewrite (IH n Hn). reflexivity.
  - destruct n as [|n]; [lia|]. rewrite (IH n) by lia. reflexivity.
Qed.

Lemma varchar_fits n v : (chars v <= n)%nat -> varchar n v = Some v.
Proof. intros Hn. unfold varchar. rewrite (split_chars_fits v n Hn). reflexivity. Qed.

(** ** The session *)

#[local] Arguments insert_fault : simpl never.
#[local] Arguments insert_row : simpl never.
#[local] Arguments inserted_row : simpl never.

Section SessionFacts.

Lemma set_pending_same s : pending s = [] -> set_pending [] s = s.
Proof. destruct s; simpl; intros ->; reflexivity. Qed.

Lemma set_pending_twice l l' s : set_pending l (set_pending l' s) = set_pending l s.
Proof. reflexivity. Qed.

Lemma insert_fault_set_pending l s i :
  insert_fault (set_pending l s) i = insert_fault s i.
Proof. destruct i; reflexivity. Qed.

Lemma bind_error_set_pending l s i :
  bind_error (engine (set_pending l s)) i = bind_error (engine s) i.
Proof. reflexivity. Qed.

(** [add] then [commit] on a session with nothing pending. *)
Lemma add_commit i s :
  pending s = [] ->
  (session_add i;;; session_commit) s =
    match bind_error (engine s) i with
    | Some e => Raise e (set_pending [Added i; FailedFlush] s)
    | None =>
        match insert_fault s i with
        | None => Return tt (insert_row i s)
        | Some f => Raise (DBAPIError f) (set_pending [Added i; FailedFlush] s)
        end
    end.
Proof.
  intros Hp. unfold bind, session_add, session_commit. rewrite Hp.
  cbn -[bind_error insert_fault insert_row].
  destruct (bind_error (engine s) i); [reflexivity|].
  rewrite (insert_fault_set_pending [Added i] s i).
  destruct (insert_fault s i); [reflexivity|].
  f_equal. destruct s, i; simpl in *; subst; reflexivity.
Qed.

(** [add] then [commit] in a transaction with a failed statement. *)
Lemma add_commit_aborted i s :
  pending s = [FailedStatement] ->
  (session_add i;;; session_commit) s =
    match bind_error (engine s) i with
    | Some e => Raise e (set_pending [FailedStatement; Added i; FailedFlush] s)
    | None =>
        Raise (DBAPIError InFailedSqlTransaction)
              (set_pending [FailedStatement; Added i; FailedFlush] s)
    end.
Proof.
  intros Hp. unfold bind, session_add, session_commit. rewrite Hp.
  cbn -[bind_error insert_fault insert_row].
  destruct (bind_error (engine s) i); reflexivity.
Qed.

Lemma insert_row_pending i s : pending (insert_row i s) = pending s.
Proof. destruct i; reflexivity. Qed.

Lemma insert_row_collections i s : collections_tbl (insert_row i s) = collections_tbl s.
Proof. destruct i; reflexivity. Qed.

End SessionFacts.

(** ** The ingest loop *)

Section Ingest.

Variables id_ request_time : string.

Lemma new_instance_members o n :
  new_instance id_ request_time o = Some n ->
  o !! "id" = Some (new_id n)
  /\ o !! "type" = Some (new_type n)
  /\ o !! "created" = Some (new_created n)
  /\ o !! "modified" = Some (new_modified n).
Proof.
  unfold new_instance. intros H.
  destruct (o !! "id") as [i|]; [|discriminate].
  destruct (o !! "type") as [ty|]; [|discriminate].
  destruct (o !! "created") as [c|]; [|discriminate].
  destruct (o !! "modified") as [m|]; [|discriminate].
  simpl in H. injection H as <-. auto.
Qed.

Lemma new_instance_eq o n :
  new_instance id_ request_time o = Some n ->
  n = mkNewObjects (new_id n) (new_type n) request_time id_ o
                   (new_created n) (new_modified n).
Proof.
  unfold new_instance. intros H.
  destruct (o !! "id") as [i|]; [|discriminate].
  destruct (o !! "type") as [ty|]; [|discriminate].
  destruct (o !! "created") as [c|]; [|discriminate].
  destruct (o !! "modified") as [m|]; [|discriminate].
  simpl in H. injection H as <-. reflexivity.
Qed.

(** One turn of the loop on an item with all four members: an exception
    of the driver that is not a [DBAPIError] leaves the loop and the call;
    otherwise what [new_obj["id"]] gives goes to [successes] when the row
    is stored, and to [failures] (and [failed] is incremented) when the
    INSERT is refused. *)
Lemma add_object_instance o n t s :
  new_instance id_ request_time o = Some n ->
  pending s = [] ->
  add_object id_ request_time o t s =
    let failure :=
      Return (mkTally (failed t + 1) (succeeded t) (pending_count t)
                      (successes t) (failures t ++ [new_id n])) s in
    match bind_error (engine s) (NewObject n) with
    | Some (DBAPIError _) => failure
    | Some e => Raise e (set_pending [Added (NewObject n); FailedFlush] s)
    | None =>
        match insert_fault s (NewObject n) with
        | None =>
            Return (mkTally (failed t) (succeeded t) (pending_count t)
                            (successes t ++ [new_id n]) (failures t))
                   (insert_row (NewObject n) s)
        | Some _ => failure
        end
    end.
Proof.
  intros Hn Hp.
  pose proof (new_instance_eq _ _ Hn) as En.
  destruct (new_instance_members _ _ Hn) as (Hi & Hty & Hc & Hm).
  unfold add_object, try_except_DBAPIError.
  unfold bind at 1. unfold getitem at 1. rewrite Hi. unfold ret at 1.
  unfold bind at 1. unfold getitem at 1. rewrite Hty. unfold ret at 1.
  unfold bind at 1. unfold getitem at 1. rewrite Hc. unfold ret at 1.
  unfold bind at 1. unfold getitem at 1. rewrite Hm. unfold ret at 1.
  rewrite <- En.
  unfold bind at 1.
  pose proof (add_commit (NewObject n) s Hp) as Hac.
  unfold bind in Hac at 1.
  destruct (session_add (NewObject n) s) as [[] s1|e s1] eqn:Ea;
    [|discriminate Ea].
  unfold bind at 1. rewrite Hac.
  assert (Hroll : forall l,
            (id <- getitem o "id";;
             session_rollback;;;
             ret (mkTally (failed t + 1) (succeeded t) (pending_count t)
                          (successes t) (failures t ++ [id])))
              (set_pending l s)
            = Return (mkTally (failed t + 1) (succeeded t) (pending_count t)
                              (successes t) (failures t ++ [new_id n])) s).
  { intros l. unfold bind, getitem. rewrite Hi. unfold ret, session_rollback.
    rewrite set_pending_twice, set_pending_same by exact Hp. reflexivity. }
  destruct (bind_error (engine s) (NewObject n)) as [e|].
  - destruct e; try reflexivity. apply Hroll.
  - destruct (insert_fault s (NewObject n)) as [f|].
    + apply Hroll.
    + unfold bind, getitem. rewrite Hi. reflexivity.
Qed.

Lemma sendable_bound e v : sendable v = true -> bind_colval (bound e v) = None.
Proof.
  destruct v; try discriminate. simpl. intros H.
  destruct (has_nul s); [discriminate | reflexivity].
Qed.

Lemma plain_bind_error e n : plain n = true -> bind_error e (NewObject n) = None.
Proof.
  unfold plain. intros H.
  apply andb_prop in H as [H Hm]. apply andb_prop in H as [H Hc].
  apply andb_prop in H as [H Hco]. apply andb_prop in H as [H Hd].
  apply andb_prop in H as [Hi Hty].
  unfold bind_error. cbn [first_error fold_right].
  rewrite (sendable_bound e _ Hi), (sendable_bound e _ Hty),
    (sendable_bound e _ Hc), (sendable_bound e _ Hm).
  cbn [bind_colval]. apply negb_true_iff in Hd, Hco. rewrite Hd, Hco. reflexivity.
Qed.

Lemma plain_id n : plain n = true -> new_id n = JStr (item_id n).
Proof.
  unfold plain, item_id. intros H.
  repeat (apply andb_prop in H as [H _]).
  destruct (new_id n); try discriminate. reflexivity.
Qed.

Lemma add_object_row o n t s :
  new_instance id_ request_time o = Some n ->
  plain n = true ->
  pending s = [] ->
  add_object id_ request_time o t s =
    match insert_fault s (NewObject n) with
    | None =>
        Return (mkTally (failed t) (succeeded t) (pending_count t)
                        (successes t ++ [new_id n]) (failures t))
               (insert_row (NewObject n) s)
    | Some _ =>
        Return (mkTally (failed t + 1) (succeeded t) (pending_count t)
                        (successes t) (failures t ++ [new_id n]))
               s
    end.
Proof.
  intros Hn Hpl Hp. rewrite (add_object_instance _ _ _ _ Hn Hp).
  cbv zeta. rewrite (plain_bind_error _ _ Hpl). reflexivity.
Qed.

Lemma insert_row_engine i s : engine (insert_row i s) = engine s.
Proof. destruct i; reflexivity. Qed.

Lemma insert_row_objects n s :
  objects_tbl (insert_row (NewObject n) s)
  = objects_tbl s ++ row_list (inserted_row (engine s) n).
Proof. reflexivity. Qed.

Lemma ingest_session_tables news : forall s,
  objects_tbl (ingest_session news s)
  = objects_tbl s ++ rows_of s (stored (storage_outcomes news s))
  /\ collections_tbl (ingest_session news s) = collections_tbl s
  /\ status_tbl (ingest_session news s) = status_tbl s
  /\ pending (ingest_session news s) = pending s
  /\ engine (ingest_session news s) = engine s.
Proof.
  induction news as [|n news IH]; intros s; simpl.
  - unfold stored, rows_of. simpl. rewrite app_nil_r. auto.
  - destruct (insert_fault s (NewObject n)).
    + apply IH.
    + destruct (IH (insert_row (NewObject n) s)) as (Ho & Hc & Hs & Hp & He).
      rewrite Ho, Hc, Hs, Hp, He. unfold stored, rows_of.
      cbn [List.filter snd map flat_map].
      rewrite insert_row_objects, <- app_assoc. auto.
Qed.

(** The loop on a batch of items that all have the four members, as
    strings without a NUL: no exception, every item visited, and the two
    id lists filled in batch order. *)
Lemma add_each_rows objects news :
  plain_items id_ request_time objects news ->
  forall t s, pending s = [] ->
  add_each id_ request_time objects t s =
    Return (mkTally (failed t + Z.of_nat (length (refused (storage_outcomes news s))))
                    (succeeded t) (pending_count t)
                    (successes t ++ map new_id (stored (storage_outcomes news s)))
                    (failures t ++ map new_id (refused (storage_outcomes news s))))
           (ingest_session news s).
Proof.
  induction 1 as [|o n objects news [Hn Hpl] _ IH]; intros t s Hp.
  - simpl. unfold ret, refused, stored. simpl.
    rewrite Z.add_0_r, !app_nil_r. destruct t; reflexivity.
  - simpl. unfold bind at 1. rewrite (add_object_row _ _ _ _ Hn Hpl Hp).
    destruct (insert_fault s (NewObject n)).
    + rewrite IH by exact Hp. unfold refused, stored. simpl.
      rewrite <- !app_assoc. simpl. do 2 f_equal. lia.
    + rewrite IH by (rewrite insert_row_pending; exact Hp).
      unfold refused, stored. simpl.
      rewrite <- !app_assoc. reflexivity.
Qed.

Lemma plain_items_Forall objects news :
  plain_items id_ request_time objects news -> Forall (fun n => plain n = true) news.
Proof. induction 1 as [|o n objects news [_ Hpl] _ IH]; constructor; assumption. Qed.

Lemma stored_Forall (P : NewObjects -> Prop) news :
  Forall P news -> forall s, Forall P (stored (storage_outcomes news s)).
Proof.
  induction 1 as [|n news Hn _ IH]; intros s; cbn [storage_outcomes].
  - constructor.
  - destruct (insert_fault s (NewObject n)); unfold stored; cbn.
    + apply IH.
    + constructor; [exact Hn | apply IH].
Qed.

Lemma refused_Forall (P : NewObjects -> Prop) news :
  Forall P news -> forall s, Forall P (refused (storage_outcomes news s)).
Proof.
  induction 1 as [|n news Hn _ IH]; intros s; cbn [storage_outcomes].
  - constructor.
  - destruct (insert_fault s (NewObject n)); unfold refused; cbn.
    + constructor; [exact Hn | apply IH].
    + apply IH.
Qed.

(** The ids of such instances are strings, which [join] takes. *)
Lemma strings_of_plain (l : list NewObjects) :
  Forall (fun n => plain n = true) l ->
  strings_of (map new_id l) = Some (map item_id l).
Proof.
  induction 1 as [|n l Hn _ IH]; [reflexivity|].
  cbn [map strings_of]. rewrite (plain_id _ Hn), IH. reflexivity.
Qed.

(** [_put_status] never raises; it leaves the objects and collections
    alone and nothing pending. *)
Lemma put_status_returns status s :
  pending s = [] ->
  exists s', _put_status status s = Return tt s'
             /\ objects_tbl s' = objects_tbl s
             /\ collections_tbl s' = collections_tbl s
             /\ pending s' = []
             /\ engine s' = engine s.
Proof.
  intros Hp. unfold _put_status.
  pose proof (add_commit (NewStatus status) s Hp) as Hac.
  cbn [bind_error] in Hac. unfold bind in Hac.
  unfold bind at 1.
  destruct (session_add (NewStatus status) s) as [[] s1|e s1] eqn:Ea;
    [|discriminate Ea].
  unfold try_except_DBAPIError. rewrite Hac.
  destruct (insert_fault s (NewStatus status)).
  - eexists. split; [reflexivity|]. simpl. auto.
  - eexists. split; [reflexivity|]. rewrite insert_row_engine. simpl. auto.
Qed.

Lemma bundle_of_objects objects : bundle_of objects !! "objects" = Some objects.
Proof. apply lookup_singleton_eq. Qed.

(** [add_objects] on such a batch: the status it returns and the rows it
    leaves. *)
Lemma add_objects_rows new_id api_root objects news s :
  plain_items id_ request_time objects news ->
  pending s = [] ->
  exists s',
    add_objects new_id api_root id_ (bundle_of objects) request_time s =
      Return (generate_status new_id request_time "complete"
                0 (Z.of_nat (length (refused (storage_outcomes news s)))) 0
                (join "" (map item_id (stored (storage_outcomes news s))))
                (join "," (map item_id (refused (storage_outcomes news s)))))
             s'
    /\ objects_tbl s' = objects_tbl s ++ rows_of s (stored (storage_outcomes news s))
    /\ collections_tbl s' = collections_tbl s
    /\ pending s' = []
    /\ engine s' = engine s.
Proof.
  intros Hw Hp. unfold add_objects.
  rewrite bundle_of_objects. unfold bind at 1. unfold ret at 1.
  unfold bind at 1. rewrite (add_each_rows _ _ Hw _ _ Hp).
  cbn [failed succeeded pending_count successes failures app Z.add].
  pose proof (plain_items_Forall _ _ Hw) as Hpl.
  unfold bind at 1. unfold pyjoin at 1.
  rewrite (strings_of_plain _ (stored_Forall _ _ Hpl s)). unfold ret at 1.
  unfold bind at 1. unfold pyjoin at 1.
  rewrite (strings_of_plain _ (refused_Forall _ _ Hpl s)). unfold ret at 1.
  destruct (ingest_session_tables news s) as (Ho & Hc & _ & Hpe & He).
  edestruct (put_status_returns) as (s' & Hput & Ho' & Hc' & Hp' & He');
    [rewrite Hpe; exact Hp|].
  exists s'. unfold bind. rewrite Hput. unfold ret.
  split; [reflexivity|].
  rewrite Ho', Hc', He', Ho, Hc, He. auto.
Qed.

End Ingest.

(** ** Collection detail *)

Section CollectionDetail.

Lemma to_dict_media_types (row : Collections.t) :
  to_dict row !! "media_types" = Some (py_of_column (Collections.media_types row)).
Proof. reflexivity. Qed.

(** The default of [setdefault] is never used: the dictionary of a
    loaded row always has the key. A row whose [media_types] is a string
    is returned with that string split at the commas. *)
Lemma get_collection_found api_root collection_id s row mt :
  query_first (collections_tbl s)
              (fun c => String.eqb (Collections.id c) collection_id) = Some row ->
  Collections.media_types row = Some mt ->
  exists d, get_collection api_root collection_id s = Return (Some d) s
            /\ d !! "media_types" = Some (PyList (split comma mt))
            /\ d !! "can_read" = Some (PyBool true)
            /\ d !! "can_write" = Some (PyBool true).
Proof.
  intros Hq Hmt. unfold get_collection. rewrite Hq.
  unfold setdefault. rewrite to_dict_media_types, Hmt. simpl.
  eexists. split; [reflexivity|].
  repeat split.
Qed.

Lemma get_collection_null api_root collection_id s row :
  query_first (collections_tbl s)
              (fun c => String.eqb (Collections.id c) collection_id) = Some row ->
  Collections.media_types row = None ->
  get_collection api_root collection_id s = Raise AttributeError s.
Proof.
  intros Hq Hmt. unfold get_collection. rewrite Hq.
  unfold setdefault. rewrite to_dict_media_types, Hmt. reflexivity.
Qed.

Lemma get_collection_not_found api_root collection_id s :
  query_first (collections_tbl s)
              (fun c => String.eqb (Collections.id c) collection_id) = None ->
  get_collection api_root collection_id s = Return None s.
Proof. intros Hq. unfold get_collection. rewrite Hq. reflexivity. Qed.

End CollectionDetail.



(** C9. A collection provisioned with no media types is read back with
    the column's server default, [application/vnd.oasis.stix+json], as a
    one-element list: the [version=2.0] default of [get_collection] is not
    applied, because the dictionary of the row already has the key. *)
Theorem get_collection_unconfigured_media_types :
  exists s d,
    insert_into_collections "c1" None None None None empty_session = inr s
    /\ get_collection "api1" "c1" s = Return (Some d) s
    /\ d !! "media_types" = Some (PyList ["application/vnd.oasis.stix+json"])
    /\ d !! "media_types" <> Some (PyList [default_media_type]).
Proof.
  eexists _, _.
  split; [reflexivity|].
  split; [reflexivity|].
  split; [reflexivity|].
  vm_compute. discriminate.
Qed.

(** ** Reads of an id that no row has *)

Section NotFound.

Lemma get_status_not_found api_root status_id s :
  query_first (status_tbl s) (fun r => String.eqb (Status.id r) status_id) = None ->
  get_status api_root status_id s = Return None s.
Proof. intros Hq. unfold get_status. rewrite Hq. reflexivity. Qed.

Lemma order_rows_nil {A} (lt : A -> A -> bool) : order_rows lt [] = [].
Proof. reflexivity. Qed.

End NotFound.

(** C7. With an id that no row has, the collection detail and the status
    lookup return [None], and the single-object lookup raises
    [IndexError] ([query[0]] of an empty result). *)
Theorem reads_of_an_unknown_id api_root collection_id key s :
  query_first (collections_tbl s) (fun c => String.eqb (Collections.id c) key) = None ->
  query_first (status_tbl s) (fun r => String.eqb (Status.id r) key) = None ->
  List.filter (fun r => String.eqb (Objects.id r) key) (objects_tbl s) = [] ->
  get_collection api_root key s = Return None s
  /\ get_status api_root key s = Return None s
  /\ get_object api_root collection_id key s = Raise IndexError s.
Proof.
  intros Hc Hs Ho. repeat split.
  - apply get_collection_not_found, Hc.
  - apply get_status_not_found, Hs.
  - unfold get_object, query_object_versions. rewrite Ho. reflexivity.
Qed.

Lemma reads_of_an_unknown_id_witness :
  get_collection "api1" "no-such-id" one_collection = Return None one_collection
  /\ get_status "api1" "no-such-id" one_collection = Return None one_collection
  /\ get_object "api1" "c" "no-such-id" one_collection = Raise IndexError one_collection.
Proof.
  apply (reads_of_an_unknown_id "api1" "c" "no-such-id" one_collection);
    reflexivity.
Defined.

(** ** Object listing *)

(** C5. The statement of [get_objects] selects [objects.object] and
    orders by [objects.modified] while grouping by [objects.id] alone, so
    PostgreSQL refuses it: on every state of the store the listing raises
    and returns no payload at all. The tables are as they were; the
    transaction is left with the failed statement. *)
Theorem get_objects_is_refused api_root collection_id s :
  get_objects api_root collection_id s
  = Raise (DBAPIError GroupingError) (set_pending (pending s ++ [FailedStatement]) s).
Proof. reflexivity. Qed.

(** ** Batch ingest *)

Section StatusFields.

Variables (new_id request_time status : string) (succeeded failed pending : Z)
          (successes_ids failures : string).

Lemma generate_status_successes :
  generate_status new_id request_time status succeeded failed pending
                  successes_ids failures !! "successes"
  = Some (PyStr successes_ids).
Proof. reflexivity. Qed.

Lemma generate_status_failures :
  generate_status new_id request_time status succeeded failed pending
                  successes_ids failures !! "failures"
  = Some (PyStr failures).
Proof. reflexivity. Qed.

Lemma generate_status_failure_count :
  generate_status new_id request_time status succeeded failed pending
                  successes_ids failures !! "failure_count"
  = Some (PyInt failed).
Proof. reflexivity. Qed.

Lemma generate_status_success_count :
  generate_status new_id request_time status succeeded failed pending
                  successes_ids failures !! "success_count"
  = Some (PyInt succeeded).
Proof. reflexivity. Qed.

(** The invariant of the record: [total_count] is the sum of the three
    counts it is built from. *)
Lemma generate_status_total_count :
  generate_status new_id request_time status succeeded failed pending
                  successes_ids failures !! "total_count"
  = Some (PyInt (succeeded + failed + pending)).
Proof. reflexivity. Qed.

End StatusFields.

(** C2. A batch of three items of which the second repeats the first:
    two ids under [successes], one under [failures], yet [success_count]
    is 0 and [total_count] is 1, because [succeeded] is never incremented. *)
Theorem add_objects_counts_at_a_batch_of_three :
  match add_objects "status-1" "api1" "c"
          (bundle_of [item "x" "v1"; item "x" "v1"; item "y" "v1"]) "now"
          one_collection with
  | Return st s' =>
      map Objects.id (objects_tbl s') = ["x"; "y"]
      /\ st !! "successes" = Some (PyStr "xy")
      /\ st !! "failures" = Some (PyStr "x")
      /\ st !! "failure_count" = Some (PyInt 1)
      /\ st !! "success_count" = Some (PyInt 0)
      /\ st !! "pending_count" = Some (PyInt 0)
      /\ st !! "total_count" = Some (PyInt 1)
  | Raise _ _ => False
  end.
Proof. vm_compute. repeat split. Qed.

(** C8. Two items stored by one call: the ids are joined with the empty
    string, so the status read back lists one id, ["xy"], under
    [successes]. *)
Theorem successes_do_not_round_trip :
  match (add_objects "status-1" "api1" "c"
           (bundle_of [item "x" "v1"; item "y" "v1"]) "now";;;
         get_status "api1" "status-1") one_collection with
  | Return (Some d) s' =>
      map Objects.id (objects_tbl s') = ["x"; "y"]
      /\ d !! "successes" = Some (PyList ["xy"])
      /\ d !! "failures" = Some (PyList [])
  | _ => False
  end.
Proof. vm_compute. repeat split. Qed.

Section Reingest.

Variables id_ : string.

Lemma new_instance_again rt1 rt2 o n :
  new_instance id_ rt1 o = Some n ->
  new_instance id_ rt2 o =
    Some (mkNewObjects (new_id n) (new_type n) rt2 id_ o
                       (new_created n) (new_modified n)).
Proof.
  intros Hn. destruct (new_instance_members _ _ _ _ Hn) as (Hi & Hty & Hc & Hm).
  unfold new_instance. rewrite Hi, Hty, Hc, Hm. reflexivity.
Qed.

Lemma plain_again rt1 rt2 o n :
  new_instance id_ rt1 o = Some n ->
  plain n = true ->
  has_nul rt2 = false ->
  plain (mkNewObjects (new_id n) (new_type n) rt2 id_ o
                      (new_created n) (new_modified n)) = true.
Proof.
  intros Hn Hpl Hrt. rewrite (new_instance_eq _ _ _ _ Hn) in Hpl.
  unfold plain in *. cbn [new_id new_type new_date_added new_collection new_created
                          new_modified] in *.
  rewrite Hrt.
  destruct (sendable (new_id n)), (sendable (new_type n)), (has_nul rt1),
    (has_nul id_), (sendable (new_created n)), (sendable (new_modified n));
    try discriminate; reflexivity.
Qed.

(** The key of the row an INSERT writes is made of the [id] and the
    [modified] of the instance. *)
Lemma inserted_row_key e n r :
  inserted_row e n = inr r ->
  sized 128 (text_of (bound e (new_id n))) = Some (Some (Objects.id r))
  /\ text_of (bound e (new_modified n)) = Some (Objects.modified r).
Proof.
  unfold inserted_row. intros H.
  destruct (sized 128 (text_of (bound e (new_id n)))) as [[i|]|];
    destruct (varchar 64 (new_date_added n));
    destruct (varchar 36 (new_collection n));
    destruct (text_of (bound e (new_modified n)));
    try discriminate.
  injection H as <-. auto.
Qed.

(** An instance whose key a stored row has is refused. *)
Lemma insert_fault_duplicate s n n' r :
  In r (objects_tbl s) ->
  inserted_row (engine s) n = inr r ->
  new_id n' = new_id n ->
  new_modified n' = new_modified n ->
  insert_fault s (NewObject n') <> None.
Proof.
  intros Hin Hr Hi Hm. unfold insert_fault.
  destruct (inserted_row (engine s) n') as [f|r'] eqn:Hr'; [discriminate|].
  destruct (inserted_row_key _ _ _ Hr) as [Ki Km].
  destruct (inserted_row_key _ _ _ Hr') as [Ki' Km'].
  rewrite Hi, Ki in Ki'. rewrite Hm, Km in Km'.
  assert (existsb (same_object_key r') (objects_tbl s) = true) as ->.
  { apply existsb_exists. exists r. split; [exact Hin|].
    unfold same_object_key. injection Ki' as <-. injection Km' as <-.
    rewrite !String.eqb_refl. reflexivity. }
  discriminate.
Qed.

Lemma insert_fault_None_row s n :
  insert_fault s (NewObject n) = None -> exists r, inserted_row (engine s) n = inr r.
Proof.
  unfold insert_fault. destruct (inserted_row (engine s) n) as [f|r]; [discriminate|].
  eauto.
Qed.

End Reingest.

(** C1. An item that the store accepts, its members strings without a
    NUL, ingested a second time on a session with nothing pending: the
    table gains exactly one row; the first call reports the id under
    [successes]; the second reports it under [failures], with
    [failure_count] 1, the INSERT being refused on the primary key. *)
Theorem reingest_stores_one_row_and_reports_a_failure
    new_id1 new_id2 api_root id_ new_obj n rt1 rt2 s :
  pending s = [] ->
  new_instance id_ rt1 new_obj = Some n ->
  plain n = true ->
  has_nul rt2 = false ->
  has_nul new_id1 = false ->
  has_nul new_id2 = false ->
  insert_fault s (NewObject n) = None ->
  exists st1 s1 st2 s2 r,
    add_objects new_id1 api_root id_ (bundle_of [new_obj]) rt1 s = Return st1 s1
    /\ add_objects new_id2 api_root id_ (bundle_of [new_obj]) rt2 s1 = Return st2 s2
    /\ inserted_row (engine s) n = inr r
    /\ objects_tbl s2 = objects_tbl s ++ [r]
    /\ (st1 !! "successes" = Some (PyStr (item_id n))
        /\ st1 !! "failures" = Some (PyStr ""))
    /\ (st2 !! "successes" = Some (PyStr "")
        /\ st2 !! "failures" = Some (PyStr (item_id n))
        /\ st2 !! "failure_count" = Some (PyInt 1)).
Proof.
  intros Hp Hn Hpl Hrt _ _ Hok.
  destruct (insert_fault_None_row _ _ Hok) as [r Hr].
  assert (Hw1 : plain_items id_ rt1 [new_obj] [n]) by (repeat constructor; assumption).
  destruct (add_objects_rows id_ rt1 new_id1 api_root _ _ s Hw1 Hp)
    as (s1 & Hrun1 & Ho1 & Hc1 & Hp1 & He1).
  cbn [storage_outcomes] in Hrun1, Ho1. rewrite Hok in Hrun1, Ho1.
  unfold stored, rows_of in Ho1. simpl in Ho1. rewrite Hr in Ho1. simpl in Ho1.
  pose proof (new_instance_again id_ rt1 rt2 _ _ Hn) as Hn2.
  pose proof (plain_again id_ rt1 rt2 _ _ Hn Hpl Hrt) as Hpl2.
  set (n2 := mkNewObjects (new_id n) (new_type n) rt2 id_ new_obj
                          (new_created n) (new_modified n)) in *.
  assert (Hw2 : plain_items id_ rt2 [new_obj] [n2]) by (repeat constructor; assumption).
  destruct (add_objects_rows id_ rt2 new_id2 api_root _ _ s1 Hw2 Hp1)
    as (s2 & Hrun2 & Ho2 & Hc2 & Hp2 & He2).
  cbn [storage_outcomes] in Hrun2, Ho2.
  destruct (insert_fault s1 (NewObject n2)) as [f|] eqn:Hdup.
  - eexists _, s1, _, s2, r.
    split; [exact Hrun1|]. split; [exact Hrun2|]. split; [exact Hr|].
    split.
    + rewrite Ho2, Ho1. unfold stored, rows_of. simpl. rewrite app_nil_r. reflexivity.
    + repeat split.
  - exfalso. revert Hdup. apply (insert_fault_duplicate s1 n n2 r).
    + rewrite Ho1. apply in_or_app. right. left. reflexivity.
    + rewrite He1. exact Hr.
    + reflexivity.
    + reflexivity.
Qed.

Lemma reingest_stores_one_row_and_reports_a_failure_witness :
  exists st1 s1 st2 s2 r,
    add_objects "status-1" "api1" "c" (bundle_of [item "x" "v1"]) "t1" one_collection
      = Return st1 s1
    /\ add_objects "status-2" "api1" "c" (bundle_of [item "x" "v1"]) "t2" s1
      = Return st2 s2
    /\ inserted_row (engine one_collection) (item_instance "c" "t1" "x" "v1") = inr r
    /\ objects_tbl s2 = objects_tbl one_collection ++ [r]
    /\ (st1 !! "successes" = Some (PyStr (item_id (item_instance "c" "t1" "x" "v1")))
        /\ st1 !! "failures" = Some (PyStr ""))
    /\ (st2 !! "successes" = Some (PyStr "")
        /\ st2 !! "failures" = Some (PyStr (item_id (item_instance "c" "t1" "x" "v1")))
        /\ st2 !! "failure_count" = Some (PyInt 1)).
Proof.
  apply (reingest_stores_one_row_and_reports_a_failure
           "status-1" "status-2" "api1" "c" (item "x" "v1")
           (item_instance "c" "t1" "x" "v1") "t1" "t2" one_collection);
    reflexivity.
Defined.

(** C1, as the specification words it, fails on the sample server: the
    second call reports the item under [failures]. *)
Lemma reingest_is_not_a_noop_success :
  ~ reingest_is_noop_success "status-1" "status-2" "api1" "c" (item "x" "v1") "now"
      one_collection.
Proof.
  vm_compute. intros (_ & _ & (_ & Hf)). discriminate Hf.
Qed.

Section Outcomes.

Lemma storage_outcomes_rows news : forall s, map fst (storage_outcomes news s) = news.
Proof.
  induction news as [|n news IH]; intros s; cbn [storage_outcomes]; [reflexivity|].
  destruct (insert_fault s (NewObject n)); cbn [map fst]; rewrite IH; reflexivity.
Qed.

Lemma stored_refused_length (o : list (NewObjects * bool)) :
  (length (stored o) + length (refused o))%nat = length o.
Proof.
  unfold stored, refused. rewrite !length_map.
  induction o as [|[r b] o IH]; [reflexivity|].
  cbn [List.filter snd]. destruct b; cbn [negb length]; lia.
Qed.

(** Every stored instance wrote one row. *)
Lemma rows_of_stored_length news : forall s,
  length (rows_of s (stored (storage_outcomes news s)))
  = length (stored (storage_outcomes news s)).
Proof.
  induction news as [|n news IH]; intros s; cbn [storage_outcomes]; [reflexivity|].
  destruct (insert_fault s (NewObject n)) eqn:Hf.
  - exact (IH s).
  - destruct (insert_fault_None_row _ _ Hf) as [r Hr].
    specialize (IH (insert_row (NewObject n) s)).
    unfold stored, rows_of in *. simpl. rewrite Hr. simpl. f_equal. exact IH.
Qed.

End Outcomes.

(** C3. A batch whose items all have the members [id], [type], [created]
    and [modified], all of them strings without a NUL, as are the
    collection id, the request time and the status id, ingested on a
    session with nothing pending: the call does not raise and returns a
    status [complete]; the items the storage refuses, and only they, are
    under [failures] and counted in [failure_count]; every other item is
    stored, one row each, also when it comes after a refused one. *)
Theorem storage_faults_stay_with_their_item
    new_id api_root id_ request_time objects news s :
  wellformed id_ request_time objects news ->
  has_nul new_id = false ->
  pending s = [] ->
  let outcomes := storage_outcomes news s in
  exists st s',
    add_objects new_id api_root id_ (bundle_of objects) request_time s = Return st s'
    /\ st !! "status" = Some (PyStr "complete")
    /\ st !! "failures" = Some (PyStr (join "," (map item_id (refused outcomes))))
    /\ st !! "failure_count" = Some (PyInt (Z.of_nat (length (refused outcomes))))
    /\ objects_tbl s' = objects_tbl s ++ rows_of s (stored outcomes)
    /\ length (rows_of s (stored outcomes)) = length (stored outcomes)
    /\ map fst outcomes = news
    /\ (length (stored outcomes) + length (refused outcomes))%nat = length objects.
Proof.
  intros Hw _ Hp outcomes.
  destruct Hw as (_ & _ & Hw).
  destruct (add_objects_rows id_ request_time new_id api_root _ _ s Hw Hp)
    as (s' & Hrun & Ho & _ & _).
  eexists _, s'. split; [exact Hrun|].
  split; [reflexivity|]. split; [reflexivity|]. split; [reflexivity|].
  split; [exact Ho|].
  split; [apply rows_of_stored_length|].
  split; [apply storage_outcomes_rows|].
  rewrite stored_refused_length. unfold outcomes.
  rewrite <- (length_map fst), storage_outcomes_rows.
  symmetry. exact (Forall2_length _ _ _ Hw).
Qed.

Lemma storage_faults_stay_with_their_item_witness :
  exists st s',
    add_objects "status-1" "api1" "c"
      (bundle_of [item "x" "v1"; item "x" "v1"; item "y" "v1"]) "now" one_collection
    = Return st s'
    /\ st !! "failures" = Some (PyStr "x")
    /\ st !! "failure_count" = Some (PyInt 1)
    /\ map Objects.id (objects_tbl s') = ["x"; "y"].
Proof.
  pose (new i := item_instance "c" "now" i "v1").
  destruct (storage_faults_stay_with_their_item
              "status-1" "api1" "c" "now"
              [item "x" "v1"; item "x" "v1"; item "y" "v1"]
              [new "x"; new "x"; new "y"] one_collection)
    as (st & s' & Hrun & _ & Hf & Hn & Ho & _).
  - repeat constructor.
  - reflexivity.
  - reflexivity.
  - exists st, s'. split; [exact Hrun|].
    split; [exact Hf|]. split; [exact Hn|].
    rewrite Ho. reflexivity.
Defined.

(** C3, as the specification words it, fails on a batch whose second item
    has no [type]: the call raises [KeyError]. *)
Lemma a_malformed_item_aborts_the_batch :
  ~ always_returns_a_status "status-1" "api1" "c"
      [item "x" "v1"; delete "type" (item "y" "v1"); item "z" "v1"] "now"
      one_collection.
Proof.
  vm_compute. intros H. exact H.
Qed.

(** What that call does: the first item is stored, the third is never
    reached, and no status is written. *)
Example a_malformed_item_raises_KeyError :
  match add_objects "status-1" "api1" "c"
          (bundle_of [item "x" "v1"; delete "type" (item "y" "v1"); item "z" "v1"])
          "now" one_collection with
  | Raise e s' =>
      e = KeyError "type"
      /\ map Objects.id (objects_tbl s') = ["x"]
      /\ status_tbl s' = []
  | Return _ _ => False
  end.
Proof. vm_compute. repeat split. Qed.

(** An item with all four members whose id has a NUL: the driver raises
    [ValueError], which the loop does not catch; the call raises, no
    status is written, and the session is left with the failed flush, so
    that the next call raises as well. *)
Example an_id_with_a_NUL_raises_ValueError :
  match add_objects "status-1" "api1" "c"
          (bundle_of [item (String nul "x") "v1"; item "y" "v1"]) "now"
          one_collection with
  | Raise e s' =>
      e = ValueError
      /\ objects_tbl s' = [] /\ status_tbl s' = []
      /\ failed_flush (pending s') = true
      /\ match add_objects "status-2" "api1" "c" (bundle_of [item "y" "v1"]) "now" s' with
         | Raise e' _ => e' = InvalidRequestError
         | Return _ _ => False
         end
  | Return _ _ => False
  end.
Proof. vm_compute. repeat split. Qed.

(** An item whose id is the number 5: the row is stored, with the id the
    server makes of the number, and [join] then raises [TypeError]; no
    status is written. *)
Example an_id_that_is_a_number_raises_TypeError :
  match add_objects "status-1" "api1" "c"
          (bundle_of [<["id" := JNum "5"]> (item "x" "v1")]) "now" one_collection with
  | Raise e s' =>
      e = TypeError
      /\ map Objects.id (objects_tbl s') = ["5"] /\ status_tbl s' = []
  | Return _ _ => False
  end.
Proof. vm_compute. repeat split. Qed.

(** After a listing, which leaves its transaction with a failed
    statement, the first item of the next batch is refused whatever it
    is, and the rollback of its failure lets the second through. *)
Example after_a_refused_listing_the_first_item_fails :
  match (try_except_DBAPIError
           (get_objects "api1" "c";;; ret tt) (fun _ => ret tt);;;
         add_objects "status-1" "api1" "c"
           (bundle_of [item "x" "v1"; item "y" "v1"]) "now") one_collection with
  | Return st s' =>
      map Objects.id (objects_tbl s') = ["y"]
      /\ st !! "failures" = Some (PyStr "x")
      /\ st !! "successes" = Some (PyStr "y")
  | Raise _ _ => False
  end.
Proof. vm_compute. repeat split. Qed.

(** C4. A batch whose items all have the four members, all of them
    strings without a NUL, and whose ids are not empty and have no comma,
    ingested on a session with nothing pending: the loop collects the ids
    of the stored and of the refused items in two lists, each in batch
    order, and the [failures] list of the returned status is exactly the
    ids of the refused items, in batch order. *)
Theorem failures_follow_the_batch
    status_id api_root id_ request_time objects news s :
  wellformed id_ request_time objects news ->
  has_nul status_id = false ->
  pending s = [] ->
  Forall (fun n => item_id n <> EmptyString
                   /\ contains comma (item_id n) = false) news ->
  let outcomes := storage_outcomes news s in
  map fst outcomes = news
  /\ (exists t s',
        add_each id_ request_time objects (mkTally 0 0 0 [] []) s = Return t s'
        /\ successes t = map (fun n => JStr (item_id n)) (stored outcomes)
        /\ failures t = map (fun n => JStr (item_id n)) (refused outcomes))
  /\ (exists st s',
        add_objects status_id api_root id_ (bundle_of objects) request_time s = Return st s'
        /\ status_list st "failures" = Some (map item_id (refused outcomes))).
Proof.
  intros Hw _ Hp Hids outcomes.
  destruct Hw as (_ & _ & Hw).
  pose proof (plain_items_Forall _ _ _ _ Hw) as Hpl.
  assert (Hjs : forall l : list NewObjects,
            Forall (fun n => plain n = true) l ->
            map new_id l = map (fun n => JStr (item_id n)) l).
  { intros l Hl. apply map_ext_in. intros n Hn.
    apply plain_id. exact (proj1 (List.Forall_forall _ _) Hl n Hn). }
  split; [apply storage_outcomes_rows|]. split.
  - eexists _, _. split; [apply (add_each_rows _ _ _ _ Hw _ _ Hp)|].
    cbn [successes failures app]. split; apply Hjs.
    + apply stored_Forall, Hpl.
    + apply refused_Forall, Hpl.
  - destruct (add_objects_rows id_ request_time status_id api_root _ _ s Hw Hp)
      as (s' & Hrun & _).
    eexists _, s'. split; [exact Hrun|].
    unfold status_list. rewrite generate_status_failures.
    pose proof (refused_Forall _ _ Hids s) as Hr.
    rewrite split_or_empty_join; [reflexivity | |].
    + apply Forall_map. eapply Forall_impl; [exact Hr|]. intros r [H _]. exact H.
    + apply Forall_map. eapply Forall_impl; [exact Hr|]. intros r [_ H]. exact H.
Qed.

Lemma failures_follow_the_batch_witness :
  exists st s',
    add_objects "status-1" "api1" "c"
      (bundle_of [item "x" "v1"; item "x" "v1"; item "y" "v1"; item "y" "v1"])
      "now" one_collection
    = Return st s'
    /\ status_list st "failures" = Some ["x"; "y"].
Proof.
  pose (new i := item_instance "c" "now" i "v1").
  destruct (failures_follow_the_batch
              "status-1" "api1" "c" "now"
              [item "x" "v1"; item "x" "v1"; item "y" "v1"; item "y" "v1"]
              [new "x"; new "x"; new "y"; new "y"] one_collection)
    as (_ & _ & (st & s' & Hrun & Hf)).
  - repeat constructor.
  - reflexivity.
  - reflexivity.
  - repeat constructor; discriminate.
  - exists st, s'. split; [exact Hrun | exact Hf].
Defined.

(** C4, as the specification words it, fails on an id with a comma, which
    the delimited form of the lists splits in two, and on an empty id,
    which it cannot tell from an empty list. *)
Lemma status_lists_do_not_follow_every_batch :
  ~ status_lists_follow_the_batch "status-1" "api1" "c"
      [item "a,b" "v1"; item "a,b" "v1"] "now" one_collection
  /\ ~ status_lists_follow_the_batch "status-1" "api1" "c"
      [item "" "v1"; item "" "v1"] "now" one_collection.
Proof.
  split; vm_compute; intros [_ Hf]; discriminate Hf.
Qed.

(** ** Manifest *)

Section ManifestFacts.

Lemma distinct_ids_snoc rows r :
  distinct_ids (rows ++ [r]) =
    if existsb (String.eqb (Objects.id r)) (distinct_ids rows)
    then distinct_ids rows
    else distinct_ids rows ++ [Objects.id r].
Proof. unfold distinct_ids. rewrite fold_left_app. reflexivity. Qed.

Lemma existsb_eqb_In k (l : list string) :
  existsb (String.eqb k) l = true <-> In k l.
Proof.
  rewrite existsb_exists. split.
  - intros (x & Hx & He). apply String.eqb_eq in He. subst. exact Hx.
  - intros H. exists k. split; [exact H | apply String.eqb_refl].
Qed.

Lemma existsb_eqb_not_In k (l : list string) :
  existsb (String.eqb k) l = false <-> ~ In k l.
Proof.
  rewrite <- existsb_eqb_In. destruct (existsb _ l); split; congruence.
Qed.

Lemma In_distinct_ids rows : forall i,
  In i (distinct_ids rows) <-> exists r, In r rows /\ Objects.id r = i.
Proof.
  induction rows as [|r rows IH] using rev_ind; intros i.
  - split; [intros [] | intros (r & [] & _)].
  - rewrite distinct_ids_snoc.
    destruct (existsb _ (distinct_ids rows)) eqn:E.
    + rewrite IH. split.
      * intros (r' & Hin & Hi). exists r'. split; [|exact Hi].
        apply in_or_app. left. exact Hin.
      * intros (r' & Hin & Hi). apply in_app_or in Hin as [Hin|[<-|[]]].
        -- exists r'. auto.
        -- subst i. apply IH. apply existsb_eqb_In. exact E.
    + rewrite in_app_iff, IH. split.
      * intros [(r' & Hin & Hi)|[<-|[]]].
        -- exists r'. split; [|exact Hi]. apply in_or_app. left. exact Hin.
        -- exists r. split; [|reflexivity]. apply in_or_app. right. left. reflexivity.
      * intros (r' & Hin & Hi). apply in_app_or in Hin as [Hin|[<-|[]]].
        -- left. exists r'. auto.
        -- right. left. exact Hi.
Qed.

Lemma NoDup_distinct_ids rows : NoDup (distinct_ids rows).
Proof.
  induction rows as [|r rows IH] using rev_ind; [constructor|].
  rewrite distinct_ids_snoc.
  destruct (existsb _ (distinct_ids rows)) eqn:E; [exact IH|].
  apply existsb_eqb_not_In in E.
  apply NoDup_app; repeat split.
  - exact IH.
  - intros x Hx Hin. apply list_elem_of_In in Hin as [<-|[]].
    apply E. apply list_elem_of_In. exact Hx.
  - repeat constructor. intros H. apply list_elem_of_In in H. destruct H.
Qed.

Lemma odict_get_map {V} (f : string -> V) (l : list string) k :
  odict_get (map (fun i => (i, f i)) l) k =
    if existsb (String.eqb k) l then Some (f k) else None.
Proof.
  induction l as [|x l IH]; [reflexivity|].
  cbn [map odict_get existsb]. rewrite (String.eqb_sym k x).
  destruct (String.eqb x k) eqn:E.
  - apply String.eqb_eq in E. subst. reflexivity.
  - exact IH.
Qed.

Lemma odict_set_fresh {V} (f : string -> V) (l : list string) k v :
  ~ In k l ->
  odict_set (map (fun i => (i, f i)) l) k v = map (fun i => (i, f i)) l ++ [(k, v)].
Proof.
  induction l as [|x l IH]; intros Hn; [reflexivity|].
  cbn [map odict_set app].
  destruct (String.eqb x k) eqn:E.
  - apply String.eqb_eq in E. subst. exfalso. apply Hn. left. reflexivity.
  - rewrite IH; [reflexivity|]. intros H. apply Hn. right. exact H.
Qed.

Lemma odict_set_present {V} (f g : string -> V) (l : list string) k :
  NoDup l -> In k l ->
  (forall i, i <> k -> g i = f i) ->
  odict_set (map (fun i => (i, f i)) l) k (g k) = map (fun i => (i, g i)) l.
Proof.
  intros Hnd Hin Hg. induction l as [|x l IH]; [destruct Hin|].
  apply NoDup_cons in Hnd as [Hx Hl].
  cbn [map odict_set].
  destruct (String.eqb x k) eqn:E.
  - apply String.eqb_eq in E. subst x. f_equal.
    apply map_ext_in. intros i Hi. f_equal. symmetry. apply Hg.
    intros ->. apply Hx. apply list_elem_of_In. exact Hi.
  - apply String.eqb_neq in E. rewrite (Hg x E). f_equal.
    apply IH; [exact Hl|]. destruct Hin as [->|H]; [congruence | exact H].
Qed.

Lemma rows_with_id_snoc i rows r :
  rows_with_id i (rows ++ [r]) =
    rows_with_id i rows ++ (if String.eqb (Objects.id r) i then [r] else []).
Proof. unfold rows_with_id. rewrite List.filter_app. reflexivity. Qed.

Lemma manifest_entry_other rows r i :
  i <> Objects.id r -> manifest_entry (rows ++ [r]) i = manifest_entry rows i.
Proof.
  intros Hne. unfold manifest_entry. rewrite rows_with_id_snoc.
  assert (String.eqb (Objects.id r) i = false) as ->
    by (apply String.eqb_neq; congruence).
  rewrite app_nil_r. reflexivity.
Qed.

Lemma rows_with_id_nil i rows :
  ~ In i (distinct_ids rows) -> rows_with_id i rows = [].
Proof.
  intros Hn. unfold rows_with_id.
  destruct (List.filter _ rows) as [|r l] eqn:E; [reflexivity|].
  exfalso. apply Hn. apply In_distinct_ids.
  assert (Hin : In r (List.filter (fun r => String.eqb (Objects.id r) i) rows))
    by (rewrite E; left; reflexivity).
  apply filter_In in Hin as [Hin He]. apply String.eqb_eq in He.
  exists r. auto.
Qed.

Lemma rows_with_id_not_nil i rows :
  In i (distinct_ids rows) -> rows_with_id i rows <> [].
Proof.
  intros Hin. apply In_distinct_ids in Hin as (r & Hr & Hi).
  assert (H : In r (rows_with_id i rows)).
  { apply filter_In. split; [exact Hr|]. apply String.eqb_eq. exact Hi. }
  intros E. rewrite E in H. destruct H.
Qed.

(** One turn of the loop of [get_object_manifest]. *)
Lemma manifest_step_snoc rows r :
  manifest_step (maker_of rows)
                (Objects.id r, Objects.date_added r, Objects.modified r)
  = maker_of (rows ++ [r]).
Proof.
  unfold manifest_step, maker_of.
  rewrite odict_get_map, distinct_ids_snoc.
  destruct (existsb (String.eqb (Objects.id r)) (distinct_ids rows)) eqn:E.
  - apply existsb_eqb_In in E.
    pose proof (rows_with_id_not_nil _ _ E) as Hne.
    rewrite <- (odict_set_present (manifest_entry rows)
                  (manifest_entry (rows ++ [r])) _ (Objects.id r)
                  (NoDup_distinct_ids rows) E).
    + f_equal. unfold manifest_entry. rewrite rows_with_id_snoc.
      rewrite String.eqb_refl. cbn [Manifest.id Manifest.date_added
        Manifest.versions Manifest.media_types].
      rewrite map_app. f_equal.
      destruct (rows_with_id (Objects.id r) rows); [congruence | reflexivity].
    + intros i Hi. apply manifest_entry_other. exact Hi.
  - apply existsb_eqb_not_In in E.
    rewrite odict_set_fresh by exact E.
    rewrite map_app. cbn [map]. f_equal.
    + apply map_ext_in. intros i Hi. f_equal. symmetry.
      apply manifest_entry_other. intros ->. exact (E Hi).
    + do 2 f_equal. unfold manifest_entry. rewrite rows_with_id_snoc.
      rewrite (rows_with_id_nil _ _ E), String.eqb_refl. reflexivity.
Qed.

Lemma manifest_loop rows2 : forall rows1,
  fold_left manifest_step
    (map (fun r => (Objects.id r, Objects.date_added r, Objects.modified r)) rows2)
    (maker_of rows1)
  = maker_of (rows1 ++ rows2).
Proof.
  induction rows2 as [|r rows2 IH]; intros rows1.
  - rewrite app_nil_r. reflexivity.
  - cbn [map fold_left]. rewrite manifest_step_snoc, IH, <- app_assoc. reflexivity.
Qed.

Lemma append_values {V} (maker : odict V) : forall acc,
  fold_left (fun (manifest : list V) kv => manifest ++ [snd kv]) maker acc
  = acc ++ map snd maker.
Proof.
  induction maker as [|kv maker IH]; intros acc; cbn [fold_left map].
  - rewrite app_nil_r. reflexivity.
  - rewrite IH, <- app_assoc. reflexivity.
Qed.

(** The manifest is the view of the whole table. *)
Lemma get_object_manifest_view api_root collection_id s :
  get_object_manifest api_root collection_id s
  = Return (manifest_view (objects_tbl s)) s.
Proof.
  unfold get_object_manifest, query_id_date_added_modified.
  change (@nil (string * Manifest.entry)) with (maker_of []) at 1.
  rewrite manifest_loop, append_values. cbn [app].
  unfold maker_of, manifest_view. rewrite map_map. reflexivity.
Qed.

End ManifestFacts.



(** The example of the specification: after three versions of one id and
    one version of another, two entries, the first with three versions. *)
Example manifest_of_three_versions_and_one :
  exists e1 e2,
    get_object_manifest "api1" "c" three_and_one = Return [e1; e2] three_and_one
    /\ Manifest.id e1 = "x" /\ Manifest.versions e1 = ["v1"; "v2"; "v3"]
    /\ Manifest.id e2 = "y" /\ Manifest.versions e2 = ["v1"].
Proof.
  eexists _, _. split; [vm_compute; reflexivity|]. repeat split.
Qed.


(** The statement of [get_object_manifest] has no condition on
    [collection]: asked for a collection that holds nothing, it lists the
    object of another. *)
Example manifest_lists_the_object_of_another_collection :
  rows_of_collection "d" two_collections = []
  /\ exists e,
       get_object_manifest "api1" "d" two_collections = Return [e] two_collections
       /\ Manifest.id e = "x".
Proof.
  split; [reflexivity|].
  eexists. split; [vm_compute; reflexivity|]. reflexivity.
Qed.


(** * Further properties of the backend *)

(** ** [ObjDict.to_dict] *)

Section ToDict.

Lemma to_dict_fold {A} `{ObjDict A} (self : A) :
  to_dict self = fold_left export_attribute (instance_dict self) ∅.
Proof. reflexivity. Qed.

Lemma export_attributes (l : list (string * pyval)) :
  NoDup (map fst l) ->
  forall k v,
    fold_left export_attribute l ∅ !! k = Some v
    <-> In (k, v) l /\ startswith_underscore k = false.
Proof.
  induction l as [|[k' v'] l IH] using rev_ind; intros Hnd k v.
  - cbn. rewrite lookup_empty. split; [discriminate | intros [[] _]].
  - rewrite map_app in Hnd. apply NoDup_app in Hnd as (Hl & Hfresh & _).
    rewrite fold_left_app. cbn [fold_left]. unfold export_attribute at 1. cbn [fst snd].
    rewrite in_app_iff. cbn [In].
    destruct (startswith_underscore k') eqn:Eu.
    + rewrite (IH Hl). split.
      * intros [Hin Hk]. auto.
      * intros [[Hin|[Heq|[]]] Hk]; [auto|].
        injection Heq as -> ->. congruence.
    + destruct (decide (k' = k)) as [->|Hne].
      * rewrite lookup_insert_eq. split.
        -- intros [= ->]. auto.
        -- intros [[Hin|[Heq|[]]] _].
           ++ exfalso. apply (Hfresh k).
              ** apply list_elem_of_In, in_map_iff. exists (k, v). auto.
              ** cbn. left.
           ++ injection Heq as ->. reflexivity.
      * rewrite lookup_insert_ne by exact Hne. rewrite (IH Hl). split.
        -- intros [Hin Hk]. auto.
        -- intros [[Hin|[Heq|[]]] Hk]; [auto|].
           injection Heq as -> _. congruence.
Qed.

End ToDict.

(** X1. For an instance whose attribute names are distinct, [to_dict]
    exports exactly the attributes whose name does not start with an
    underscore, each with its value: nothing private, nothing invented,
    nothing dropped. *)
Theorem to_dict_exports_the_public_attributes {A} `{ObjDict A} (self : A) k v :
  NoDup (map fst (instance_dict self)) ->
  to_dict self !! k = Some v
  <-> In (k, v) (instance_dict self) /\ startswith_underscore k = false.
Proof.
  intros Hnd. rewrite to_dict_fold. apply export_attributes, Hnd.
Qed.

Lemma to_dict_exports_the_public_attributes_witness :
  to_dict (Collections.mk "c" (Some "Indicators") None None (Some "api1")) !! "title"
    = Some (PyStr "Indicators")
  <-> In ("title", PyStr "Indicators")
         (instance_dict (Collections.mk "c" (Some "Indicators") None None (Some "api1")))
      /\ startswith_underscore "title" = false.
Proof.
  apply (to_dict_exports_the_public_attributes
           (Collections.mk "c" (Some "Indicators") None None (Some "api1"))).
  apply (bool_decide_unpack _). vm_compute. reflexivity.
Defined.

(** ** [_split_or_empty] *)

Section Rejoin.

Lemma join_split s : join "," (split comma s) = s.
Proof.
  unfold join. induction s as [|c s IH]; [reflexivity|].
  cbn [split]. destruct (Ascii.eqb c comma) eqn:Ec.
  - apply Ascii.eqb_eq in Ec. subst c.
    destruct (split comma s) as [|p ps] eqn:Es; [destruct (split_not_nil _ _ Es)|].
    change (String.concat "," (EmptyString :: p :: ps))
      with (String comma (String.concat "," (p :: ps))).
    rewrite IH. reflexivity.
  - destruct (split comma s) as [|p ps] eqn:Es; [destruct (split_not_nil _ _ Es)|].
    destruct ps as [|p' ps].
    + cbn in IH |- *. rewrite IH. reflexivity.
    + change (String.concat "," (String c p :: p' :: ps))
        with (String c (p ++ String comma (String.concat "," (p' :: ps))))%string.
      change (String.concat "," (p :: p' :: ps))
        with (p ++ String comma (String.concat "," (p' :: ps)))%string in IH.
      rewrite IH. reflexivity.
Qed.

Lemma split_pieces_comma_free s :
  Forall (fun x => contains comma x = false) (split comma s).
Proof.
  induction s as [|c s IH]; [repeat constructor|].
  cbn [split]. destruct (Ascii.eqb c comma) eqn:Ec.
  - constructor; [reflexivity | exact IH].
  - destruct (split comma s) as [|p ps]; [repeat constructor; cbn; rewrite Ec; reflexivity|].
    inversion IH as [|? ? Hp Hps]; subst.
    constructor; [|exact Hps]. cbn. rewrite Ec, Hp. reflexivity.
Qed.

End Rejoin.

(** X2. [_split_or_empty] accepts every string, and what it returns
    encodes back to that string: the pieces have no comma, and joined with
    commas they give the string again. *)
Theorem split_or_empty_then_join (v : string) :
  exists l,
    _split_or_empty (PyStr v) = inr (PyList l)
    /\ Forall (fun x => contains comma x = false) l
    /\ join "," l = v.
Proof.
  destruct v as [|c v].
  - exists []. repeat split. constructor.
  - exists (split comma (String c v)). split; [reflexivity|].
    split; [apply split_pieces_comma_free | apply join_split].
Qed.

(** ** Collections and API roots *)

Section Registries.

Lemma append_values_list {V W} (f : V -> W) (l : list V) : forall acc,
  fold_left (fun (resources : list W) c => resources ++ [f c]) l acc = acc ++ map f l.
Proof.
  induction l as [|x l IH]; intros acc; cbn [fold_left map].
  - rewrite app_nil_r. reflexivity.
  - rewrite IH, <- app_assoc. reflexivity.
Qed.

Lemma get_collections_rows api_root s :
  get_collections api_root s = Return (map to_dict (collections_tbl s)) s.
Proof. unfold get_collections. rewrite append_values_list. reflexivity. Qed.




End Registries.

(** X3. For a collection id whose row the query finds, [get_collection]
    leaves the session alone and either returns the row's columns with
    [media_types] split at the commas into a list (whatever the stored
    string is), or, when [media_types] is NULL, raises [AttributeError]:
    the default of [setdefault] is never the answer. *)
Theorem get_collection_of_a_row api_root collection_id s row :
  query_first (collections_tbl s)
              (fun c => String.eqb (Collections.id c) collection_id) = Some row ->
  match Collections.media_types row with
  | Some mt =>
      exists d,
        get_collection api_root collection_id s = Return (Some d) s
        /\ d !! "id" = Some (PyStr collection_id)
        /\ d !! "title" = Some (py_of_column (Collections.title row))
        /\ d !! "description" = Some (py_of_column (Collections.description row))
        /\ d !! "api_root" = Some (py_of_column (Collections.api_root row))
        /\ d !! "media_types" = Some (PyList (split comma mt))
  | None => get_collection api_root collection_id s = Raise AttributeError s
  end.
Proof.
  intros Hq. destruct (Collections.media_types row) as [mt|] eqn:Hmt.
  - pose proof (find_some _ _ Hq) as [_ Hid]. apply String.eqb_eq in Hid.
    unfold get_collection. rewrite Hq.
    unfold setdefault. rewrite to_dict_media_types, Hmt. cbn match.
    eexists. split; [reflexivity|]. rewrite <- Hid. repeat split.
  - exact (get_collection_null _ _ _ _ Hq Hmt).
Qed.

Lemma get_collection_of_a_row_witness :
  exists d,
    get_collection "api2" "c" two_roots = Return (Some d) two_roots
    /\ d !! "id" = Some (PyStr "c")
    /\ d !! "title" = Some (PyStr "Indicators")
    /\ d !! "description" = Some PyNone
    /\ d !! "api_root" = Some (PyStr "api1")
    /\ d !! "media_types" = Some (PyList ["application/vnd.oasis.stix+json"; "text/plain"]).
Proof.
  exact (get_collection_of_a_row "api2" "c" two_roots _ eq_refl).
Defined.

(** X4. A collection that [get_collection] returns is also in the list of
    [get_collections], whatever API root either is asked with; the list
    has one dictionary per row of the table, and there [media_types] is
    still the stored string and there is no [can_read] or [can_write]. *)
Theorem get_collections_lists_what_get_collection_finds
    api_root api_root' collection_id s d s' :
  get_collection api_root collection_id s = Return (Some d) s' ->
  exists l d' mt,
    get_collections api_root' s = Return l s
    /\ length l = length (collections_tbl s)
    /\ In d' l
    /\ d' !! "id" = Some (PyStr collection_id)
    /\ d' !! "media_types" = Some (PyStr mt)
    /\ d !! "media_types" = Some (PyList (split comma mt))
    /\ d' !! "can_read" = None
    /\ d' !! "can_write" = None.
Proof.
  intros H.
  destruct (query_first (collections_tbl s)
              (fun c => String.eqb (Collections.id c) collection_id)) as [row|] eqn:Hq;
    [|rewrite (get_collection_not_found api_root _ _ Hq) in H; discriminate].
  destruct (Collections.media_types row) as [mt|] eqn:Hmt;
    [|rewrite (get_collection_null api_root _ _ _ Hq Hmt) in H; discriminate].
  destruct (get_collection_found api_root _ _ _ _ Hq Hmt) as (d0 & Hd & Hm & _).
  rewrite Hd in H. injection H as <- _.
  pose proof (find_some _ _ Hq) as [Hin Hid]. apply String.eqb_eq in Hid.
  exists (map to_dict (collections_tbl s)), (to_dict row), mt.
  split; [apply get_collections_rows|].
  split; [apply length_map|].
  split; [apply in_map, Hin|].
  split; [rewrite <- Hid; reflexivity|].
  split; [rewrite to_dict_media_types, Hmt; reflexivity|].
  split; [exact Hm|]. split; reflexivity.
Qed.

Lemma get_collections_lists_what_get_collection_finds_witness :
  exists d l d' mt,
    get_collection "api1" "c" two_roots = Return (Some d) two_roots
    /\ get_collections "api2" two_roots = Return l two_roots
    /\ length l = 1%nat
    /\ In d' l
    /\ d' !! "media_types" = Some (PyStr mt)
    /\ d !! "media_types" = Some (PyList (split comma mt))
    /\ d' !! "can_read" = None.
Proof.
  eexists.
  assert (H : get_collection "api1" "c" two_roots = Return (Some _) two_roots)
    by reflexivity.
  destruct (get_collections_lists_what_get_collection_finds
              "api1" "api2" "c" two_roots _ two_roots H)
    as (l & d' & mt & Hl & Hlen & Hin & _ & Hmt & Hd & Hr & _).
  exists l, d', mt. auto 10.
Defined.


(** ** The status store *)

Section StatusStore.

Lemma find_last_fresh {A} (p : A -> bool) (l : list A) (x : A) :
  existsb p l = false -> p x = true -> List.find p (l ++ [x]) = Some x.
Proof.
  induction l as [|y l IH]; cbn; intros Hl Hx.
  - rewrite Hx. reflexivity.
  - apply orb_false_iff in Hl as [Hy Hl]. rewrite Hy. apply IH; assumption.
Qed.

Lemma get_status_row api_root status_id s row :
  query_first (status_tbl s) (fun r => String.eqb (Status.id r) status_id) = Some row ->
  get_status api_root status_id s = Return (Some (status_resource row)) s.
Proof.
  intros Hq. unfold get_status. rewrite Hq.
  destruct row as [i st rt tc sc fc pc su fa pe].
  destruct su, fa, pe; reflexivity.
Qed.

Lemma put_status_session status s :
  pending s = [] -> _put_status status s = Return tt (with_status status s).
Proof.
  intros Hp. unfold _put_status, with_status.
  pose proof (add_commit (NewStatus status) s Hp) as Hac.
  cbn [bind_error] in Hac. unfold bind in Hac.
  unfold bind at 1.
  destruct (session_add (NewStatus status) s) as [[] s1|e s1] eqn:Ea;
    [|discriminate Ea].
  unfold try_except_DBAPIError. rewrite Hac.
  destruct (insert_fault s (NewStatus status)).
  - unfold session_rollback. f_equal. destruct s; cbn in *; subst; reflexivity.
  - reflexivity.
Qed.

(** What an accepted status INSERT has checked. *)
Lemma insert_fault_status_None status s :
  insert_fault s (NewStatus status) = None ->
  exists row, status_row status = Some row
              /\ existsb (fun r' => String.eqb (Status.id r') (Status.id row))
                         (status_tbl s) = false.
Proof.
  unfold insert_fault. destruct (status_row status) as [row|]; [|discriminate].
  intros H. exists row. split; [reflexivity|].
  destruct (existsb _ (status_tbl s)); [|reflexivity].
  exfalso. destruct (negb _) in H; [discriminate|].
  destruct (negb _) in H; discriminate.
Qed.

Lemma get_status_after_put api_root status row s :
  pending s = [] ->
  insert_fault s (NewStatus status) = None ->
  status_row status = Some row ->
  get_status api_root (Status.id row) (with_status status s)
  = Return (Some (status_resource row)) (with_status status s)
  /\ status_tbl (with_status status s) = status_tbl s ++ [row]
  /\ objects_tbl (with_status status s) = objects_tbl s.
Proof.
  intros Hp Hok Hrow.
  destruct (insert_fault_status_None _ _ Hok) as (row' & Hrow' & Hfresh).
  rewrite Hrow in Hrow'. injection Hrow' as <-.
  assert (Ht : status_tbl (with_status status s) = status_tbl s ++ [row]).
  { unfold with_status. rewrite Hok. unfold insert_row. cbn. rewrite Hrow. reflexivity. }
  split; [|split; [exact Ht|]].
  - apply get_status_row. unfold query_first. rewrite Ht.
    apply find_last_fresh; [exact Hfresh | apply String.eqb_refl].
  - unfold with_status. rewrite Hok. reflexivity.
Qed.

Lemma status_row_id status row :
  status_row status = Some row -> status !! "id" = Some (PyStr (Status.id row)).
Proof.
  unfold status_row. intros H.
  destruct (str_column status "id") as [[i|]|] eqn:Ei; cbn in H; try discriminate.
  repeat match type of H with
         | context [mbind _ ?x] => destruct x; cbn in H; try discriminate
         end.
  injection H as <-. cbn.
  unfold str_column in Ei.
  destruct (status !! "id") as [[]|]; try discriminate.
  injection Ei as ->. reflexivity.
Qed.

End StatusStore.

(** X6. A status dictionary that the store accepts, put and then read by
    its id: the record comes back with the scalar columns as they were
    written and the three id lists decoded from their stored strings; the
    table has gained that one row. *)
Theorem put_status_then_get_status api_root status row s :
  pending s = [] ->
  insert_fault s (NewStatus status) = None ->
  status_row status = Some row ->
  exists d s',
    (_put_status status;;; get_status api_root (Status.id row)) s = Return (Some d) s'
    /\ status_tbl s' = status_tbl s ++ [row]
    /\ d !! "id" = Some (PyStr (Status.id row))
    /\ d !! "status" = Some (py_of_column (Status.status row))
    /\ d !! "request_timestamp" = Some (py_of_column (Status.request_timestamp row))
    /\ d !! "total_count" = Some (py_of_int_column (Status.total_count row))
    /\ d !! "success_count" = Some (PyInt (Status.success_count row))
    /\ d !! "failure_count" = Some (PyInt (Status.failure_count row))
    /\ d !! "pending_count" = Some (PyInt (Status.pending_count row))
    /\ d !! "successes" = Some (PyList (decoded (Status.successes row)))
    /\ d !! "failures" = Some (PyList (decoded (Status.failures row)))
    /\ d !! "pendings" = Some (PyList (decoded (Status.pendings row))).
Proof.
  intros Hp Hok Hrow.
  destruct (get_status_after_put api_root _ _ _ Hp Hok Hrow) as (Hget & Ht & _).
  exists (status_resource row), (with_status status s).
  split.
  - unfold bind. rewrite (put_status_session _ _ Hp). exact Hget.
  - split; [exact Ht|]. repeat split.
Qed.

Lemma put_status_then_get_status_witness :
  exists d s',
    (_put_status (generate_status "status-1" "now" "complete" 0 2 0 "x" "y,z");;;
     get_status "api1" "status-1") one_collection = Return (Some d) s'
    /\ d !! "total_count" = Some (PyInt 2)
    /\ d !! "successes" = Some (PyList ["x"])
    /\ d !! "failures" = Some (PyList ["y"; "z"])
    /\ d !! "pendings" = Some (PyList []).
Proof.
  destruct (put_status_then_get_status "api1"
              (generate_status "status-1" "now" "complete" 0 2 0 "x" "y,z")
              (Status.mk "status-1" (Some "complete") (Some "now") (Some 2) 0 2 0
                         "x" "y,z" "")
              one_collection)
    as (d & s' & Hrun & _ & _ & _ & _ & Htc & _ & _ & _ & Hs & Hf & Hpe);
    [reflexivity | reflexivity | reflexivity |].
  exists d, s'. auto.
Defined.

(** X7. [_put_status] never raises and never overwrites: given a
    dictionary whose id a stored status already has, it returns with the
    session exactly as it was. *)
Theorem put_status_never_overwrites status r s :
  pending s = [] ->
  In r (status_tbl s) ->
  status !! "id" = Some (PyStr (Status.id r)) ->
  _put_status status s = Return tt s.
Proof.
  intros Hp Hin Hid. rewrite (put_status_session _ _ Hp). f_equal.
  unfold with_status.
  destruct (insert_fault s (NewStatus status)) eqn:Hf; [reflexivity|].
  exfalso.
  destruct (insert_fault_status_None _ _ Hf) as (row & Hrow & Hfresh).
  apply status_row_id in Hrow. rewrite Hid in Hrow. injection Hrow as Hrow.
  assert (existsb (fun r' => String.eqb (Status.id r') (Status.id row)) (status_tbl s)
          = true) as E.
  { apply existsb_exists. exists r. split; [exact Hin|].
    rewrite Hrow. apply String.eqb_refl. }
  congruence.
Qed.

Lemma put_status_never_overwrites_witness :
  let s := after (_put_status (generate_status "status-1" "t1" "complete" 0 0 0 "" ""))
                 one_collection in
  _put_status (generate_status "status-1" "t2" "complete" 0 1 0 "" "x") s = Return tt s.
Proof.
  cbv zeta.
  apply (put_status_never_overwrites _
           (Status.mk "status-1" (Some "complete") (Some "t1") (Some 0) 0 0 0 "" "" "")).
  - reflexivity.
  - left. reflexivity.
  - reflexivity.
Defined.

(** ** Batch ingest, continued *)

Section IngestSession.

Variables id_ request_time : string.

Lemma add_objects_session new_id api_root objects news s :
  plain_items id_ request_time objects news ->
  pending s = [] ->
  let status :=
    generate_status new_id request_time "complete"
      0 (Z.of_nat (length (refused (storage_outcomes news s)))) 0
      (join "" (map item_id (stored (storage_outcomes news s))))
      (join "," (map item_id (refused (storage_outcomes news s)))) in
  add_objects new_id api_root id_ (bundle_of objects) request_time s
  = Return status (with_status status (ingest_session news s)).
Proof.
  intros Hw Hp status. unfold add_objects.
  rewrite bundle_of_objects. unfold bind at 1. unfold ret at 1.
  unfold bind at 1. rewrite (add_each_rows _ _ _ _ Hw _ _ Hp). cbn [failed succeeded
    pending_count successes failures Z.add app].
  pose proof (plain_items_Forall _ _ _ _ Hw) as Hpl.
  unfold bind at 1. unfold pyjoin at 1.
  rewrite (strings_of_plain _ (stored_Forall _ _ Hpl s)). unfold ret at 1.
  unfold bind at 1. unfold pyjoin at 1.
  rewrite (strings_of_plain _ (refused_Forall _ _ Hpl s)). unfold ret at 1.
  destruct (ingest_session_tables news s) as (_ & _ & _ & Hpe & _).
  unfold bind. rewrite put_status_session by (rewrite Hpe; exact Hp).
  reflexivity.
Qed.

Lemma refused_length news s :
  (length (refused (storage_outcomes news s)) <= length news)%nat.
Proof.
  pose proof (stored_refused_length (storage_outcomes news s)) as H.
  rewrite <- (length_map fst (storage_outcomes news s)), storage_outcomes_rows in H.
  lia.
Qed.

Lemma decoded_split_or_empty v : _split_or_empty (PyStr v) = inr (PyList (decoded v)).
Proof. destruct v; reflexivity. Qed.

Lemma existsb_status_id_fresh new_id (tbl : list Status.t) :
  Forall (fun r => Status.id r <> new_id) tbl ->
  existsb (fun r' => String.eqb (Status.id r') new_id) tbl = false.
Proof.
  induction 1 as [|r tbl Hr _ IH]; [reflexivity|].
  cbn. rewrite IH. apply String.eqb_neq in Hr. rewrite Hr. reflexivity.
Qed.

End IngestSession.

(** X8. A batch of items that all have the four members, as strings
    without a NUL, with ids that are not empty and have no comma,
    ingested on a session with nothing pending, under a new status id
    that fits its column: the status read back by that id is [complete],
    has the request time, lists under [failures] exactly the ids of the
    refused items in batch order, counts them in [failure_count], and has
    no pending ids. *)
Theorem add_objects_then_get_status
    new_id api_root id_ request_time objects news s :
  wellformed id_ request_time objects news ->
  has_nul new_id = false ->
  pending s = [] ->
  Forall (fun n => item_id n <> EmptyString
                   /\ contains comma (item_id n) = false) news ->
  strlen new_id <= 36 ->
  strlen request_time <= 255 ->
  Z.of_nat (length objects) < 2 ^ 31 ->
  Forall (fun r => Status.id r <> new_id) (status_tbl s) ->
  let outcomes := storage_outcomes news s in
  exists d s',
    (add_objects new_id api_root id_ (bundle_of objects) request_time;;;
     get_status api_root new_id) s = Return (Some d) s'
    /\ d !! "id" = Some (PyStr new_id)
    /\ d !! "status" = Some (PyStr "complete")
    /\ d !! "request_timestamp" = Some (PyStr request_time)
    /\ d !! "failures" = Some (PyList (map item_id (refused outcomes)))
    /\ d !! "failure_count" = Some (PyInt (Z.of_nat (length (refused outcomes))))
    /\ d !! "pendings" = Some (PyList []).
Proof.
  intros Hw _ Hp Hids Hid Hrt Hlen Hnew outcomes.
  destruct Hw as (_ & _ & Hw).
  pose proof (add_objects_session id_ request_time new_id api_root _ _ s Hw Hp) as Hrun.
  cbv zeta in Hrun. fold outcomes in Hrun.
  set (n := Z.of_nat (length (refused outcomes))) in *.
  set (su := join "" (map item_id (stored outcomes))) in *.
  set (fa := join "," (map item_id (refused outcomes))) in *.
  set (status := generate_status new_id request_time "complete" 0 n 0 su fa) in *.
  set (row := Status.mk new_id (Some "complete") (Some request_time) (Some (0 + n + 0))
                        0 n 0 su fa "").
  assert (Hrow : status_row status = Some row) by reflexivity.
  destruct (ingest_session_tables news s) as (_ & _ & Hst & Hpe & _).
  assert (Hn : 0 <= n < 2 ^ 31).
  { subst n outcomes. pose proof (refused_length news s) as Hle.
    pose proof (Forall2_length _ _ _ Hw) as Hl. lia. }
  assert (Hok : insert_fault (ingest_session news s) (NewStatus status) = None).
  { unfold insert_fault. rewrite Hrow. unfold row. cbn [Status.id Status.status
      Status.request_timestamp Status.total_count Status.success_count
      Status.failure_count Status.pending_count fits].
    assert ((strlen new_id <=? 36) = true) as -> by (apply Z.leb_le; exact Hid).
    assert ((strlen request_time <=? 255) = true) as -> by (apply Z.leb_le; exact Hrt).
    assert ((strlen "complete" <=? 8) = true) as -> by reflexivity.
    assert (int4 (0 + n + 0) = true) as ->.
    { unfold int4. apply andb_true_iff. split; [apply Z.leb_le | apply Z.ltb_lt]; lia. }
    assert (int4 n = true) as ->.
    { unfold int4. apply andb_true_iff. split; [apply Z.leb_le | apply Z.ltb_lt]; lia. }
    assert (int4 0 = true) as -> by reflexivity.
    rewrite Hst, (existsb_status_id_fresh _ _ Hnew). reflexivity. }
  destruct (get_status_after_put api_root _ _ _ (eq_trans Hpe Hp) Hok Hrow)
    as (Hget & _ & _).
  exists (status_resource row), (with_status status (ingest_session news s)).
  split; [unfold bind; rewrite Hrun; exact Hget|].
  split; [reflexivity|]. split; [reflexivity|]. split; [reflexivity|].
  split; [|split; reflexivity].
  assert (Hdec : decoded fa = map item_id (refused outcomes)).
  { pose proof (refused_Forall _ _ Hids s) as Hr.
    assert (E : _split_or_empty (PyStr fa)
                = inr (PyList (map item_id (refused outcomes)))).
    { apply split_or_empty_join; apply Forall_map; (eapply Forall_impl; [exact Hr|]);
        intros r [H1 H2]; assumption. }
    rewrite decoded_split_or_empty in E. injection E as E. exact E. }
  rewrite <- Hdec. reflexivity.
Qed.

Lemma add_objects_then_get_status_witness :
  exists d s',
    (add_objects "status-1" "api1" "c"
       (bundle_of [item "x" "v1"; item "x" "v1"; item "y" "v1"; item "y" "v1"]) "now";;;
     get_status "api1" "status-1") one_collection = Return (Some d) s'
    /\ d !! "failures" = Some (PyList ["x"; "y"])
    /\ d !! "failure_count" = Some (PyInt 2).
Proof.
  pose (new i := item_instance "c" "now" i "v1").
  destruct (add_objects_then_get_status
              "status-1" "api1" "c" "now"
              [item "x" "v1"; item "x" "v1"; item "y" "v1"; item "y" "v1"]
              [new "x"; new "x"; new "y"; new "y"] one_collection)
    as (d & s' & Hrun & _ & _ & _ & Hf & Hn & _).
  - repeat constructor.
  - reflexivity.
  - reflexivity.
  - repeat constructor; discriminate.
  - vm_compute. discriminate.
  - vm_compute. discriminate.
  - vm_compute. reflexivity.
  - constructor.
  - exists d, s'. auto.
Defined.

(** X9. For every batch of items that all have the four members, as
    strings without a NUL, ingested on a session with nothing pending,
    the status returned has [success_count] 0 and [pending_count] 0, and
    [total_count] equal to [failure_count], the number of refused items,
    however many items were stored; [successes] is the stored ids written
    one after the other with nothing between them. *)
Theorem add_objects_counts_only_failures
    new_id api_root id_ request_time objects news s :
  wellformed id_ request_time objects news ->
  has_nul new_id = false ->
  pending s = [] ->
  let outcomes := storage_outcomes news s in
  exists st s',
    add_objects new_id api_root id_ (bundle_of objects) request_time s = Return st s'
    /\ st !! "success_count" = Some (PyInt 0)
    /\ st !! "pending_count" = Some (PyInt 0)
    /\ st !! "failure_count" = Some (PyInt (Z.of_nat (length (refused outcomes))))
    /\ st !! "total_count" = Some (PyInt (Z.of_nat (length (refused outcomes))))
    /\ st !! "successes" = Some (PyStr (join "" (map item_id (stored outcomes))))
    /\ (length (stored outcomes) + length (refused outcomes))%nat = length objects.
Proof.
  intros Hw _ Hp outcomes.
  destruct Hw as (_ & _ & Hw).
  destruct (add_objects_rows id_ request_time new_id api_root _ _ s Hw Hp)
    as (s' & Hrun & _).
  eexists _, s'. split; [exact Hrun|].
  split; [reflexivity|]. split; [reflexivity|]. split; [reflexivity|].
  split; [|split; [reflexivity|]].
  - rewrite generate_status_total_count, Z.add_0_r. reflexivity.
  - rewrite stored_refused_length. unfold outcomes.
    rewrite <- (length_map fst), storage_outcomes_rows.
    symmetry. exact (Forall2_length _ _ _ Hw).
Qed.

Lemma add_objects_counts_only_failures_witness :
  exists st s',
    add_objects "status-1" "api1" "c"
      (bundle_of [item "x" "v1"; item "y" "v1"; item "z" "v1"]) "now" one_collection
    = Return st s'
    /\ st !! "success_count" = Some (PyInt 0)
    /\ st !! "total_count" = Some (PyInt 0)
    /\ st !! "successes" = Some (PyStr "xyz").
Proof.
  pose (new i := item_instance "c" "now" i "v1").
  destruct (add_objects_counts_only_failures
              "status-1" "api1" "c" "now"
              [item "x" "v1"; item "y" "v1"; item "z" "v1"]
              [new "x"; new "y"; new "z"] one_collection)
    as (st & s' & Hrun & Hsc & _ & _ & Htc & Hsu & _).
  - repeat constructor.
  - reflexivity.
  - reflexivity.
  - exists st, s'. auto.
Defined.

(** ** Batch ingest on any batch *)

Section AnyBatch.

Variables id_ request_time : string.

Lemma add_object_missing o k t s :
  first_missing_member o = Some k ->
  add_object id_ request_time o t s = Raise (KeyError k) s /\ o !! k = None.
Proof.
  unfold first_missing_member, add_object, try_except_DBAPIError. cbn [List.find].
  unfold bind at 1. unfold getitem at 1.
  destruct (o !! "id") eqn:Ei; [|intros [= <-]; auto].
  unfold ret at 1. unfold bind at 1. unfold getitem at 1.
  destruct (o !! "type") eqn:Ety; [|intros [= <-]; auto].
  unfold ret at 1. unfold bind at 1. unfold getitem at 1.
  destruct (o !! "created") eqn:Ec; [|intros [= <-]; auto].
  unfold ret at 1. unfold bind at 1. unfold getitem at 1.
  destruct (o !! "modified") eqn:Em; [|intros [= <-]; auto].
  discriminate.
Qed.

Lemma new_instance_or_missing o :
  (exists n, new_instance id_ request_time o = Some n)
  \/ (exists k, first_missing_member o = Some k).
Proof.
  unfold new_instance, first_missing_member. cbn [List.find].
  destruct (o !! "id"); [|right; eauto].
  destruct (o !! "type"); [|right; eauto].
  destruct (o !! "created"); [|right; eauto].
  destruct (o !! "modified"); [|right; eauto].
  left. eexists. reflexivity.
Qed.

(** The columns of a stored row that the call decides. *)
Lemma inserted_row_columns e o n r :
  new_instance id_ request_time o = Some n ->
  inserted_row e n = inr r ->
  varchar 36 id_ = Some (Objects.collection r)
  /\ varchar 64 request_time = Some (Objects.date_added r)
  /\ Objects.revoked r = false /\ Objects.object r = o.
Proof.
  intros Hn. rewrite (new_instance_eq _ _ _ _ Hn). unfold inserted_row.
  cbn [new_id new_type new_date_added new_collection new_object new_created
       new_modified].
  destruct (sized 128 _) as [[i|]|];
    destruct (varchar 64 request_time);
    destruct (varchar 36 id_);
    destruct (text_of (bound e (new_modified n)));
    try discriminate.
  intros [= <-]. auto.
Qed.

Lemma after_add_each_cons o objects t s :
  after (add_each id_ request_time (o :: objects) t) s
  = match add_object id_ request_time o t s with
    | Return t' s1 => after (add_each id_ request_time objects t') s1
    | Raise _ s1 => s1
    end.
Proof.
  unfold after. cbn [add_each]. unfold bind.
  destruct (add_object id_ request_time o t s); reflexivity.
Qed.

(** The turn of the loop on one item, whatever the item: the session it
    leaves is the one it found, or that with the item's row, or, when
    the driver raised something else than a [DBAPIError], the one it
    found with the instance and the failed flush. *)
Lemma add_object_session o t s :
  pending s = [] ->
  match add_object id_ request_time o t s with
  | Return _ s1 =>
      s1 = s
      \/ exists n, new_instance id_ request_time o = Some n
                   /\ insert_fault s (NewObject n) = None
                   /\ s1 = insert_row (NewObject n) s
  | Raise _ s1 =>
      s1 = s
      \/ exists n, s1 = set_pending [Added (NewObject n); FailedFlush] s
  end.
Proof.
  intros Hp.
  destruct (new_instance_or_missing o) as [[n Hn]|[k Hk]].
  - rewrite (add_object_instance _ _ _ _ _ _ Hn Hp). cbv zeta.
    destruct (bind_error (engine s) (NewObject n)) as [e|].
    + destruct e; eauto.
    + destruct (insert_fault s (NewObject n)) eqn:Hf; eauto.
  - destruct (add_object_missing _ _ t s Hk) as [-> _]. auto.
Qed.

(** A property of the tables that every accepted INSERT of a row of this
    batch keeps holds after the loop, whether it ends or raises; when the
    loop ends nothing is pending, and when it raises nothing is pending
    or a flush has failed. *)
Lemma add_each_keeps (P : Session -> Prop) :
  (forall s o n, pending s = [] -> P s ->
                 new_instance id_ request_time o = Some n ->
                 insert_fault s (NewObject n) = None ->
                 P (insert_row (NewObject n) s)) ->
  (forall s l, P s -> P (set_pending l s)) ->
  forall objects t s,
    pending s = [] -> P s ->
    match add_each id_ request_time objects t s with
    | Return _ s1 => P s1 /\ pending s1 = []
    | Raise _ s1 => P s1 /\ (pending s1 = [] \/ failed_flush (pending s1) = true)
    end.
Proof.
  intros Hstep Hpend. induction objects as [|o objects IH]; intros t s Hp HP.
  - cbn. auto.
  - cbn [add_each]. unfold bind.
    pose proof (add_object_session o t s Hp) as Ho.
    destruct (add_object id_ request_time o t s) as [t1 s1|e s1].
    + destruct Ho as [->|(n & Hn & Hf & ->)].
      * exact (IH t1 s Hp HP).
      * exact (IH t1 _ (eq_trans (insert_row_pending _ _) Hp) (Hstep s o n Hp HP Hn Hf)).
    + destruct Ho as [->|(n & ->)]; [auto|].
      split; [apply Hpend, HP | right; reflexivity].
Qed.

Lemma after_add_objects new_id api_root objs s :
  pending s = [] ->
  exists objects,
    let s1 := after (add_each id_ request_time objects (mkTally 0 0 0 [] [])) s in
    after (add_objects new_id api_root id_ objs request_time) s = s1
    \/ exists status,
         pending s1 = []
         /\ after (add_objects new_id api_root id_ objs request_time) s
            = with_status status s1.
Proof.
  intros Hp. unfold add_objects, after, pyjoin, bind, ret, raise.
  destruct (objs !! "objects") as [objects|]; [|exists []; left; reflexivity].
  exists objects. cbv zeta.
  pose proof (add_each_keeps (fun _ => True) (fun _ _ _ _ _ _ _ => I) (fun _ _ _ => I)
                objects (mkTally 0 0 0 [] []) s Hp I) as Hp1.
  destruct (add_each id_ request_time objects (mkTally 0 0 0 [] []) s) as [t s1|e s1].
  - destruct Hp1 as [_ Hp1].
    destruct (strings_of (successes t)); [|left; reflexivity].
    destruct (strings_of (failures t)); [|left; reflexivity].
    right. eexists. split; [exact Hp1|].
    rewrite (put_status_session _ _ Hp1). reflexivity.
  - left. reflexivity.
Qed.

Lemma with_status_tables status s :
  objects_tbl (with_status status s) = objects_tbl s
  /\ collections_tbl (with_status status s) = collections_tbl s
  /\ api_root_tbl (with_status status s) = api_root_tbl s
  /\ pending (with_status status s) = pending s
  /\ exists statuses, status_tbl (with_status status s) = status_tbl s ++ statuses
                      /\ (length statuses <= 1)%nat.
Proof.
  unfold with_status. destruct (insert_fault s (NewStatus status)).
  - repeat split. exists []. rewrite app_nil_r. auto.
  - repeat split. unfold insert_row. cbn.
    exists (option_list (status_row status)). split; [reflexivity|].
    destruct (status_row status); cbn; lia.
Qed.

End AnyBatch.

(** X10. Whatever the bundle, on a session with nothing pending, and
    whether the call returns or raises, [add_objects] only appends: the
    rows stored before are still there in the same order; every new row
    has, as its columns store them, the collection asked for and the
    request time as [date_added], and is not revoked; at most one status
    row is added; collections and API roots are untouched; and either
    nothing is left pending or the session is left with a failed flush. *)
Theorem add_objects_only_appends new_id api_root id_ objs request_time s :
  pending s = [] ->
  let s' := after (add_objects new_id api_root id_ objs request_time) s in
  (exists added,
     objects_tbl s' = objects_tbl s ++ added
     /\ Forall (fun r => varchar 36 id_ = Some (Objects.collection r)
                         /\ varchar 64 request_time = Some (Objects.date_added r)
                         /\ Objects.revoked r = false) added)
  /\ (exists statuses,
        status_tbl s' = status_tbl s ++ statuses /\ (length statuses <= 1)%nat)
  /\ collections_tbl s' = collections_tbl s
  /\ api_root_tbl s' = api_root_tbl s
  /\ (pending s' = [] \/ failed_flush (pending s') = true).
Proof.
  intros Hp s'.
  destruct (after_add_objects id_ request_time new_id api_root objs s Hp)
    as (objects & Hs'). cbv zeta in Hs'.
  set (P := fun s1 : Session =>
              (exists added,
                 objects_tbl s1 = objects_tbl s ++ added
                 /\ Forall (fun r => varchar 36 id_ = Some (Objects.collection r)
                                     /\ varchar 64 request_time
                                        = Some (Objects.date_added r)
                                     /\ Objects.revoked r = false) added)
              /\ status_tbl s1 = status_tbl s
              /\ collections_tbl s1 = collections_tbl s
              /\ api_root_tbl s1 = api_root_tbl s).
  assert (HP : P s).
  { repeat split. exists []. rewrite app_nil_r. auto. }
  assert (Hstep : forall s1 o n, pending s1 = [] -> P s1 ->
             new_instance id_ request_time o = Some n ->
             insert_fault s1 (NewObject n) = None ->
             P (insert_row (NewObject n) s1)).
  { intros s1 o n _ ((added & Ho & Ha) & Hst & Hc & Hr) Hn Hf.
    destruct (insert_fault_None_row _ _ Hf) as [r Hrow].
    destruct (inserted_row_columns _ _ _ _ _ _ Hn Hrow) as (H1 & H2 & H3 & _).
    unfold P. rewrite insert_row_objects, Hrow.
    repeat split; try assumption.
    exists (added ++ [r]). rewrite Ho, <- app_assoc. split; [reflexivity|].
    apply Forall_app. split; [exact Ha|]. repeat constructor; assumption. }
  assert (Hpend : forall s1 l, P s1 -> P (set_pending l s1)) by (intros s1 l H; exact H).
  pose proof (add_each_keeps id_ request_time P Hstep Hpend objects
                (mkTally 0 0 0 [] []) s Hp HP) as Hloop.
  assert (Hafter : P (after (add_each id_ request_time objects (mkTally 0 0 0 [] [])) s)
                   /\ (pending (after (add_each id_ request_time objects
                                         (mkTally 0 0 0 [] [])) s) = []
                       \/ failed_flush
                            (pending (after (add_each id_ request_time objects
                                               (mkTally 0 0 0 [] [])) s)) = true)).
  { unfold after.
    destruct (add_each id_ request_time objects (mkTally 0 0 0 [] []) s);
      destruct Hloop; auto. }
  destruct Hafter as [((added & Ho & Ha) & Hst & Hc & Hr) Hp1].
  subst s'. destruct Hs' as [->|(status & Hp1' & ->)].
  - split; [exists added; auto|]. split; [|auto].
    exists []. rewrite app_nil_r. auto.
  - destruct (with_status_tables status
                (after (add_each id_ request_time objects (mkTally 0 0 0 [] [])) s))
      as (Ho' & Hc' & Hr' & Hp' & (statuses & Hst' & Hlen)).
    rewrite Ho', Hc', Hr', Hp', Hst', Hst.
    split; [exists added; auto|]. split; [|auto].
    exists statuses. auto.
Qed.

Lemma add_objects_only_appends_witness :
  let s' := after (add_objects "status-1" "api1" "c"
                     (bundle_of [item "x" "v1"; delete "type" (item "y" "v1")]) "now")
                  one_collection in
  (exists added,
     objects_tbl s' = objects_tbl one_collection ++ added
     /\ Forall (fun r => varchar 36 "c" = Some (Objects.collection r)
                         /\ varchar 64 "now" = Some (Objects.date_added r)
                         /\ Objects.revoked r = false) added)
  /\ (exists statuses,
        status_tbl s' = status_tbl one_collection ++ statuses
        /\ (length statuses <= 1)%nat)
  /\ collections_tbl s' = collections_tbl one_collection
  /\ api_root_tbl s' = api_root_tbl one_collection
  /\ (pending s' = [] \/ failed_flush (pending s') = true).
Proof.
  exact (add_objects_only_appends "status-1" "api1" "c"
           (bundle_of [item "x" "v1"; delete "type" (item "y" "v1")]) "now"
           one_collection eq_refl).
Defined.

(** X11. A batch whose first items have the four members, all of them
    strings without a NUL, and whose next item lacks one, ingested on a
    session with nothing pending: [add_objects] raises [KeyError] for the
    first member that item lacks, in the order [id], [type], [created],
    [modified]; the items before it have been processed and those
    accepted are stored, no item after it is looked at, and no status is
    written. *)
Theorem a_malformed_item_stops_the_batch
    new_id api_root id_ request_time good news bad k rest s :
  wellformed id_ request_time good news ->
  first_missing_member bad = Some k ->
  pending s = [] ->
  exists s',
    add_objects new_id api_root id_ (bundle_of (good ++ bad :: rest)) request_time s
    = Raise (KeyError k) s'
    /\ bad !! k = None
    /\ objects_tbl s' = objects_tbl s ++ rows_of s (stored (storage_outcomes news s))
    /\ status_tbl s' = status_tbl s
    /\ pending s' = [].
Proof.
  intros Hw Hk Hp.
  destruct Hw as (_ & _ & Hw).
  assert (Hloop : forall t,
            add_each id_ request_time (good ++ bad :: rest) t s
            = Raise (KeyError k) (ingest_session news s)).
  { revert s Hp. induction Hw as [|o n good news [Hn Hpl] _ IH]; intros s Hp t.
    - cbn [app add_each ingest_session]. unfold bind.
      destruct (add_object_missing id_ request_time _ _ t s Hk) as [-> _]. reflexivity.
    - cbn [app add_each ingest_session]. unfold bind at 1.
      rewrite (add_object_row _ _ _ _ _ _ Hn Hpl Hp).
      destruct (insert_fault s (NewObject n)).
      + apply IH, Hp.
      + apply IH. rewrite insert_row_pending. exact Hp. }
  destruct (add_object_missing id_ request_time _ _ (mkTally 0 0 0 [] []) s Hk)
    as [_ Hnone].
  destruct (ingest_session_tables news s) as (Ho & _ & Hst & Hpe & _).
  exists (ingest_session news s). split; [|rewrite Hpe; auto].
  unfold add_objects. rewrite bundle_of_objects.
  unfold bind at 1. unfold ret at 1. unfold bind at 1. rewrite Hloop. reflexivity.
Qed.

Lemma a_malformed_item_stops_the_batch_witness :
  exists s',
    add_objects "status-1" "api1" "c"
      (bundle_of [item "x" "v1"; delete "created" (delete "type" (item "y" "v1"));
                  item "z" "v1"]) "now" one_collection
    = Raise (KeyError "type") s'
    /\ map Objects.id (objects_tbl s') = ["x"]
    /\ status_tbl s' = [].
Proof.
  destruct (a_malformed_item_stops_the_batch
              "status-1" "api1" "c" "now"
              [item "x" "v1"]
              [item_instance "c" "now" "x" "v1"]
              (delete "created" (delete "type" (item "y" "v1"))) "type"
              [item "z" "v1"] one_collection)
    as (s' & Hrun & _ & Ho & Hst & _).
  - repeat constructor.
  - reflexivity.
  - reflexivity.
  - exists s'. split; [exact Hrun|]. rewrite Ho, Hst. split; reflexivity.
Defined.

(** ** Single-object lookup *)

Section Latest.









End Latest.



(** ** Manifest after ingest *)

Section ManifestAfterIngest.

Lemma row_in_manifest_view (tbl : list Objects.t) r :
  In r tbl ->
  In (manifest_entry tbl (Objects.id r)) (manifest_view tbl)
  /\ In (Objects.modified r) (Manifest.versions (manifest_entry tbl (Objects.id r))).
Proof.
  intros Hin. split.
  - unfold manifest_view. apply in_map. apply In_distinct_ids. exists r. auto.
  - cbn [manifest_entry Manifest.versions]. apply in_map.
    apply filter_In. split; [exact Hin | apply String.eqb_refl].
Qed.

(** Every stored instance has a row. *)
Lemma stored_has_row news : forall s,
  Forall (fun n => exists r, inserted_row (engine s) n = inr r)
         (stored (storage_outcomes news s)).
Proof.
  induction news as [|n news IH]; intros s; cbn [storage_outcomes]; [constructor|].
  destruct (insert_fault s (NewObject n)) eqn:Hf.
  - exact (IH s).
  - unfold stored. cbn. constructor.
    + exact (insert_fault_None_row _ _ Hf).
    + specialize (IH (insert_row (NewObject n) s)).
      rewrite insert_row_engine in IH. exact IH.
Qed.

Lemma plain_modified n :
  plain n = true -> new_modified n = JStr (string_of (new_modified n)).
Proof.
  unfold plain. intros H. apply andb_prop in H as [_ H].
  destruct (new_modified n); try discriminate. reflexivity.
Qed.

(** The key of the row of an instance whose values are strings. *)
Lemma inserted_row_plain e n r :
  plain n = true ->
  inserted_row e n = inr r ->
  varchar 128 (item_id n) = Some (Objects.id r)
  /\ string_of (new_modified n) = Objects.modified r.
Proof.
  intros Hpl Hr. destruct (inserted_row_key _ _ _ Hr) as [Ki Km].
  rewrite (plain_id _ Hpl) in Ki. rewrite (plain_modified _ Hpl) in Km.
  cbn [bound text_of sized] in Ki, Km.
  destruct (varchar 128 (item_id n)); [|discriminate].
  injection Ki as ->. injection Km as ->. auto.
Qed.

End ManifestAfterIngest.

(** X14. Every item that [add_objects] stores, of a batch whose items
    have the four members as strings without a NUL, is in the manifest of
    its collection read afterwards: there is an entry with the item's id,
    as the column stores it, and the item's [modified] is among its
    versions. *)
Theorem stored_items_are_in_the_manifest
    status_id api_root id_ request_time objects news s n :
  wellformed id_ request_time objects news ->
  has_nul status_id = false ->
  pending s = [] ->
  In n (stored (storage_outcomes news s)) ->
  exists manifest e s',
    (add_objects status_id api_root id_ (bundle_of objects) request_time;;;
     get_object_manifest api_root id_) s = Return manifest s'
    /\ In e manifest
    /\ varchar 128 (item_id n) = Some (Manifest.id e)
    /\ In (string_of (new_modified n)) (Manifest.versions e).
Proof.
  intros Hw _ Hp Hn.
  destruct Hw as (_ & _ & Hw).
  destruct (add_objects_rows id_ request_time status_id api_root _ _ s Hw Hp)
    as (s' & Hrun & Ho & _).
  destruct (proj1 (List.Forall_forall _ _) (stored_has_row news s) n Hn) as [r Hr].
  assert (Hpl : plain n = true).
  { exact (proj1 (List.Forall_forall _ _)
                 (stored_Forall _ _ (plain_items_Forall _ _ _ _ Hw) s) n Hn). }
  destruct (inserted_row_plain _ _ _ Hpl Hr) as [Hid Hm].
  assert (Hin : In r (objects_tbl s')).
  { rewrite Ho. apply in_or_app. right. unfold rows_of.
    apply in_flat_map. exists n. split; [exact Hn|]. rewrite Hr. left. reflexivity. }
  destruct (row_in_manifest_view _ _ Hin) as [He Hv].
  exists (manifest_view (objects_tbl s')), (manifest_entry (objects_tbl s') (Objects.id r)), s'.
  split; [unfold bind; rewrite Hrun; apply get_object_manifest_view|].
  split; [exact He|]. split; [exact Hid|]. rewrite Hm. exact Hv.
Qed.

Lemma stored_items_are_in_the_manifest_witness :
  exists manifest e s',
    (add_objects "status-1" "api1" "c"
       (bundle_of [item "x" "v1"; item "x" "v2"]) "now";;;
     get_object_manifest "api1" "c") one_collection = Return manifest s'
    /\ In e manifest
    /\ varchar 128 (item_id (item_instance "c" "now" "x" "v2")) = Some (Manifest.id e)
    /\ In (string_of (new_modified (item_instance "c" "now" "x" "v2")))
          (Manifest.versions e).
Proof.
  pose (new m := item_instance "c" "now" "x" m).
  exact (stored_items_are_in_the_manifest
           "status-1" "api1" "c" "now"
           [item "x" "v1"; item "x" "v2"] [new "v1"; new "v2"] one_collection (new "v2")
           ltac:(repeat constructor) eq_refl eq_refl ltac:(right; left; reflexivity)).
Defined.

(** ** Ingesting a batch again *)

Section Again.

Lemma insert_fault_object_tables s s' n :
  objects_tbl s' = objects_tbl s ->
  collections_tbl s' = collections_tbl s ->
  engine s' = engine s ->
  insert_fault s' (NewObject n) = insert_fault s (NewObject n).
Proof. unfold insert_fault. intros -> -> ->. reflexivity. Qed.

(** An instance that is refused stays refused when rows are added. *)
Lemma insert_fault_grows s n n' :
  insert_fault s (NewObject n) <> None ->
  insert_fault (insert_row (NewObject n') s) (NewObject n) <> None.
Proof.
  unfold insert_fault. rewrite insert_row_engine, insert_row_objects.
  rewrite insert_row_collections.
  destruct (inserted_row (engine s) n) as [f|r]; [discriminate|].
  rewrite existsb_app.
  destruct (existsb (same_object_key r) (objects_tbl s)); [discriminate|].
  cbn [orb].
  destruct (existsb (same_object_key r) (row_list (inserted_row (engine s) n')));
    [discriminate|].
  destruct (negb _); [discriminate | congruence].
Qed.

Lemma insert_fault_stored s n :
  insert_fault s (NewObject n) = None ->
  insert_fault (insert_row (NewObject n) s) (NewObject n) <> None.
Proof.
  intros Hf. destruct (insert_fault_None_row _ _ Hf) as [r Hr].
  apply (insert_fault_duplicate _ n n r).
  - rewrite insert_row_objects, Hr. apply in_or_app. right. left. reflexivity.
  - rewrite insert_row_engine. exact Hr.
  - reflexivity.
  - reflexivity.
Qed.

Lemma ingest_session_grows news : forall s n,
  insert_fault s (NewObject n) <> None ->
  insert_fault (ingest_session news s) (NewObject n) <> None.
Proof.
  induction news as [|n' news IH]; intros s n Hf; cbn [ingest_session]; [exact Hf|].
  destruct (insert_fault s (NewObject n')).
  - apply IH, Hf.
  - apply IH, insert_fault_grows, Hf.
Qed.

(** After a batch, each of its instances would be refused. *)
Lemma ingest_session_refuses news : forall s n,
  In n news -> insert_fault (ingest_session news s) (NewObject n) <> None.
Proof.
  induction news as [|n' news IH]; intros s n Hin; [destruct Hin|].
  cbn [ingest_session]. destruct Hin as [->|Hin].
  - destruct (insert_fault s (NewObject n)) eqn:Hf.
    + apply ingest_session_grows. congruence.
    + apply ingest_session_grows, insert_fault_stored, Hf.
  - destruct (insert_fault s (NewObject n')); apply IH, Hin.
Qed.

Lemma with_status_engine status s : engine (with_status status s) = engine s.
Proof.
  unfold with_status. destruct (insert_fault s (NewStatus status));
    [reflexivity | apply insert_row_engine].
Qed.

Lemma storage_outcomes_all_refused news s :
  (forall n, In n news -> insert_fault s (NewObject n) <> None) ->
  stored (storage_outcomes news s) = [] /\ refused (storage_outcomes news s) = news.
Proof.
  induction news as [|n news IH]; intros Hall; [auto|].
  cbn [storage_outcomes].
  destruct (insert_fault s (NewObject n)) eqn:Hf.
  - destruct IH as [Hs Hr]; [intros n' Hn'; apply Hall; right; exact Hn'|].
    unfold stored, refused in *. cbn. rewrite Hs, Hr. auto.
  - exfalso. apply (Hall n); [left; reflexivity | exact Hf].
Qed.

End Again.

(** X15. A batch of items that all have the four members, as strings
    without a NUL, ingested a second time with the same request time on a
    session with nothing pending: the second call stores no row, and
    reports every item of the batch under [failures], in batch order,
    with [failure_count] the size of the batch. *)
Theorem ingesting_a_batch_again_stores_nothing
    new_id1 new_id2 api_root id_ request_time objects news s :
  wellformed id_ request_time objects news ->
  has_nul new_id1 = false ->
  has_nul new_id2 = false ->
  pending s = [] ->
  exists st1 s1 st2 s2,
    add_objects new_id1 api_root id_ (bundle_of objects) request_time s = Return st1 s1
    /\ add_objects new_id2 api_root id_ (bundle_of objects) request_time s1
       = Return st2 s2
    /\ objects_tbl s2 = objects_tbl s1
    /\ st2 !! "failures" = Some (PyStr (join "," (map item_id news)))
    /\ st2 !! "failure_count" = Some (PyInt (Z.of_nat (length objects)))
    /\ st2 !! "successes" = Some (PyStr "").
Proof.
  intros Hw _ _ Hp.
  destruct Hw as (_ & _ & Hw).
  pose proof (add_objects_session id_ request_time new_id1 api_root _ _ s Hw Hp) as Hrun1.
  cbv zeta in Hrun1.
  match type of Hrun1 with _ = Return ?st ?sess =>
    set (st1 := st) in *; set (s1 := sess) in * end.
  destruct (ingest_session_tables news s) as (_ & _ & _ & Hpe & Hen).
  destruct (with_status_tables st1 (ingest_session news s)) as (Ho1 & Hc1 & _ & Hp1 & _).
  assert (Hp1' : pending s1 = []) by exact (eq_trans Hp1 (eq_trans Hpe Hp)).
  assert (He1 : engine s1 = engine (ingest_session news s))
    by apply with_status_engine.
  assert (Hall : forall n, In n news -> insert_fault s1 (NewObject n) <> None).
  { intros n Hn. rewrite (insert_fault_object_tables _ s1 n Ho1 Hc1 He1).
    apply ingest_session_refuses, Hn. }
  destruct (storage_outcomes_all_refused news s1 Hall) as [Hst Hre].
  destruct (add_objects_rows id_ request_time new_id2 api_root _ _ s1 Hw Hp1')
    as (s2 & Hrun2 & Ho2 & _).
  rewrite Hst, Hre in Hrun2. rewrite Hst in Ho2. unfold rows_of in Ho2.
  cbn [flat_map] in Ho2. rewrite app_nil_r in Ho2.
  eexists _, s1, _, s2. split; [exact Hrun1|]. split; [exact Hrun2|].
  split; [exact Ho2|]. split; [reflexivity|].
  split; [|reflexivity].
  rewrite generate_status_failure_count, (Forall2_length _ _ _ Hw). reflexivity.
Qed.

Lemma ingesting_a_batch_again_stores_nothing_witness :
  exists st1 s1 st2 s2,
    add_objects "status-1" "api1" "c" (bundle_of [item "x" "v1"; item "y" "v1"]) "now"
                one_collection = Return st1 s1
    /\ add_objects "status-2" "api1" "c" (bundle_of [item "x" "v1"; item "y" "v1"]) "now"
                   s1 = Return st2 s2
    /\ objects_tbl s2 = objects_tbl s1
    /\ st2 !! "failures" = Some (PyStr "x,y")
    /\ st2 !! "failure_count" = Some (PyInt 2).
Proof.
  pose (new i := item_instance "c" "now" i "v1").
  destruct (ingesting_a_batch_again_stores_nothing
              "status-1" "status-2" "api1" "c" "now"
              [item "x" "v1"; item "y" "v1"] [new "x"; new "y"] one_collection)
    as (st1 & s1 & st2 & s2 & H1 & H2 & Ho & Hf & Hn & _).
  - repeat constructor.
  - reflexivity.
  - reflexivity.
  - reflexivity.
  - exists st1, s1, st2, s2. auto.
Defined.

(** ** Every stored version, once *)

Section ManifestCount.






End ManifestCount.

